(** * Fire-monitoring dashboard: the alert / camera orchestrator

    A shallow embedding of the state logic of the two [Home] page
    components of the repository:

    - [src/app/page.tsx]: the simulation-only page;
    - [src/unnamed/part_000]: the page that also talks to a detection
      backend through the [useFireDetectionAPI] hook.

    React state ([useState]) becomes a record that is passed explicitly;
    every handler and effect becomes a function on that record.  The
    functional updaters ([setX(prev => ...)]) are applied to the current
    value, while an effect body reads the values captured by the render
    it belongs to, exactly as the closures of the source do.

    [simulationTime], [responsesSent] and the clock values are integers
    ([Z]): the pages only add 1000 or 1 to them, in the range where a
    JavaScript number is exact.  [confidence] and the coordinates are
    rationals ([Q]); no statement below depends on rounding. *)

From Stdlib Require Import ZArith QArith String List Bool Lia DecimalString.
From stdpp Require Import base list strings gmap.

Local Open Scope string_scope.
Local Open Scope list_scope.
Local Open Scope Z_scope.

(** ** Data model *)

(** [status: "active" | "resolved"] of [FireAlert]. *)
Inductive AlertStatus : Set := active | resolved.

(** [status: "normal" | "fire"] of [SimulatedCamera]. *)
Inductive CameraStatus : Set := normal | fire.

Definition AlertStatus_eqb (a b : AlertStatus) : bool :=
  match a, b with
  | active, active | resolved, resolved => true
  | _, _ => false
  end.

Definition CameraStatus_eqb (a b : CameraStatus) : bool :=
  match a, b with
  | normal, normal | fire, fire => true
  | _, _ => false
  end.

(** [interface FireAlert].  Numbers that hold fractions are rationals;
    [timestamp] is the millisecond value of the [Date]. *)
Module FireAlert.
Record t : Type := mk {
  id : string;
  location : string;
  address : string;
  timestamp : Z;
  confidence : Q;
  coordinates : Q * Q;
  cameraId : string;
  status : AlertStatus
}.

(** [{ ...alert, status: s }] *)
Definition with_status (s : AlertStatus) (alert : t) : t :=
  mk (id alert) (location alert) (address alert) (timestamp alert)
     (confidence alert) (coordinates alert) (cameraId alert) s.

(** [{ ...alert, confidence: q }] *)
Definition with_confidence (q : Q) (alert : t) : t :=
  mk (id alert) (location alert) (address alert) (timestamp alert)
     q (coordinates alert) (cameraId alert) (status alert).
End FireAlert.

(** [interface SimulatedCamera].  [fireEventTimes] are milliseconds from
    simulation start. *)
Module SimulatedCamera.
Record t : Type := mk {
  id : string;
  name : string;
  location : string;
  coordinates : Q * Q;
  status : CameraStatus;
  confidence : Q;
  imageUrl : string;
  fireEventTimes : list Z
}.

(** [{ ...camera, status: s, confidence: q }] *)
Definition with_status (s : CameraStatus) (q : Q) (camera : t) : t :=
  mk (id camera) (name camera) (location camera) (coordinates camera)
     s q (imageUrl camera) (fireEventTimes camera).
End SimulatedCamera.

(** One entry of [result.cameras] in the answer of [scanAll]; the page
    reads [camera_id], [status] (cast to the camera status type) and
    [confidence]. *)
Module BackendCamera.
Record t : Type := mk {
  camera_id : string;
  status : CameraStatus;
  confidence : Q
}.
End BackendCamera.

(** What the host gives one iteration of the [cameras.forEach] of the
    fire-window effect: the value of [Date.now()], the value of
    [new Date()] and the value of [Math.random()], each indexed by the
    position of the iteration. *)
Record Ambient : Type := {
  dateNow : nat -> Z;
  newDate : nat -> Z;
  mathRandom : nat -> Q
}.

(** [n.toString()] for the integer returned by [Date.now()]. *)
Definition toString (n : Z) : string :=
  NilZero.string_of_int (Z.to_int n).

(** ** The fire-window evaluation, shared by both pages *)

(** [camera.fireEventTimes.some((fireTime) =>
      Math.abs(simulationTime - fireTime) < 1500)] *)
Definition isFireTimeWindow (simulationTime : Z) (camera : SimulatedCamera.t) : bool :=
  existsb (fun fireTime => Z.abs (simulationTime - fireTime) <? 1500)
          (SimulatedCamera.fireEventTimes camera).

(** [alerts.some((a) => a.cameraId === camera.id && a.status === "active")] *)
Definition hasExistingAlert (alerts : list FireAlert.t) (camera : SimulatedCamera.t) : bool :=
  existsb (fun a => String.eqb (FireAlert.cameraId a) (SimulatedCamera.id camera)
                    && AlertStatus_eqb (FireAlert.status a) active)
          alerts.

(** The updater
    [prev.map((c) => (c.id === camera.id ? { ...c, status: "fire", confidence } : c))]. *)
Definition markFire (camera : SimulatedCamera.t) (confidence : Q)
    (prev : list SimulatedCamera.t) : list SimulatedCamera.t :=
  map (fun c => if String.eqb (SimulatedCamera.id c) (SimulatedCamera.id camera)
                then SimulatedCamera.with_status fire confidence c
                else c)
      prev.

(** The object literal bound to [newAlert]. *)
Definition newAlert (now date : Z) (confidence : Q) (camera : SimulatedCamera.t) : FireAlert.t :=
  FireAlert.mk (String.append (toString now) (SimulatedCamera.id camera))
               (SimulatedCamera.name camera)
               (SimulatedCamera.location camera)
               date
               confidence
               (SimulatedCamera.coordinates camera)
               (SimulatedCamera.id camera)
               active.

(** The test that lets an iteration create an alert: the two nested
    [if]s of the effect body. *)
Definition triggers (simulationTime : Z) (alerts : list FireAlert.t)
    (camera : SimulatedCamera.t) : bool :=
  isFireTimeWindow simulationTime camera
  && CameraStatus_eqb (SimulatedCamera.status camera) normal
  && negb (hasExistingAlert alerts camera).

(** One iteration of the [forEach]: [alerts] is the value captured by
    the render, [st] the pair of state cells the queued updaters act
    on. *)
Definition fireWindowBody (E : Ambient) (simulationTime : Z) (alerts : list FireAlert.t)
    (i : nat) (camera : SimulatedCamera.t)
    (st : list SimulatedCamera.t * list FireAlert.t)
  : list SimulatedCamera.t * list FireAlert.t :=
  if isFireTimeWindow simulationTime camera
     && CameraStatus_eqb (SimulatedCamera.status camera) normal
  then
    let confidence := ((8 # 10) + mathRandom E i * (2 # 10))%Q in
    if negb (hasExistingAlert alerts camera)
    then (markFire camera confidence (fst st),
          newAlert (dateNow E i) (newDate E i) confidence camera :: snd st)
    else st
  else st.

(** [cameras.forEach((camera) => { ... })] from iteration [i] on. *)
Fixpoint forEachCamera (E : Ambient) (simulationTime : Z) (alerts : list FireAlert.t)
    (i : nat) (cameras : list SimulatedCamera.t)
    (st : list SimulatedCamera.t * list FireAlert.t)
  : list SimulatedCamera.t * list FireAlert.t :=
  match cameras with
  | [] => st
  | camera :: rest =>
      forEachCamera E simulationTime alerts (S i) rest
        (fireWindowBody E simulationTime alerts i camera st)
  end.

(** The whole effect body: the loop runs over the captured [cameras]
    and [alerts]; the updaters start from the same values, which are
    the current ones when the effect runs. *)
Definition fireWindowPass (E : Ambient) (simulationTime : Z)
    (cameras : list SimulatedCamera.t) (alerts : list FireAlert.t)
  : list SimulatedCamera.t * list FireAlert.t :=
  forEachCamera E simulationTime alerts 0 cameras (cameras, alerts).

(** ** Resolution, shared by both pages *)

(** [prev.map((alert) => (alert.id === alertId ? { ...alert, status: "resolved" } : alert))] *)
Definition resolveById (alertId : string) (prev : list FireAlert.t) : list FireAlert.t :=
  map (fun alert => if String.eqb (FireAlert.id alert) alertId
                    then FireAlert.with_status resolved alert
                    else alert)
      prev.

(** [prev.map((camera) => (camera.status === "fire"
      ? { ...camera, status: "normal", confidence: 0 } : camera))] *)
Definition resetFireCameras (prev : list SimulatedCamera.t) : list SimulatedCamera.t :=
  map (fun camera => if CameraStatus_eqb (SimulatedCamera.status camera) fire
                     then SimulatedCamera.with_status normal 0%Q camera
                     else camera)
      prev.

(** ** The simulation-only page, [src/app/page.tsx] *)

Module Home.

(** The [useState] cells of [Home]; [mapImageUrl] is constant and is
    left out. *)
Record State : Type := mkState {
  alerts : list FireAlert.t;
  cameras : list SimulatedCamera.t;
  selectedAlert : option FireAlert.t;
  responsesSent : Z;
  simulationTime : Z
}.

Definition initialCameras : list SimulatedCamera.t :=
  [ SimulatedCamera.mk "cam-1" "Smart City" "Binan City"
      (407505 # 10000, - (739737 # 10000))%Q normal 0%Q
      "/city-street-downtown.png" [15000; 45000];
    SimulatedCamera.mk "cam-2" "Smart City" "Binan City"
      (40745 # 1000, - (73968 # 1000))%Q normal 0%Q
      "/warehouse-industrial-area.png" [25000; 55000];
    SimulatedCamera.mk "cam-3" "Smart City" "Binan City"
      (40758 # 1000, - (739855 # 10000))%Q normal 0%Q
      "/residential-street.png" [35000; 65000];
    SimulatedCamera.mk "cam-4" "Smart City" "Binan City"
      (407614 # 10000, - (739776 # 10000))%Q normal 0%Q
      "/park-urban.png" [20000; 50000];
    SimulatedCamera.mk "cam-5" "Smart City" "Binan City"
      (4073 # 100, - (74006 # 1000))%Q normal 0%Q
      "/harbor-waterfront.png" [40000; 70000] ].

(** The initial values given to [useState]. *)
Definition initialState : State :=
  mkState [] [] None 0 0.

(** The mount effect: [setCameras(initialCameras)]. *)
Definition mount (st : State) : State :=
  mkState (alerts st) initialCameras (selectedAlert st)
          (responsesSent st) (simulationTime st).

(** The interval callback: [setSimulationTime((prev) => prev + 1000)]. *)
Definition tick (st : State) : State :=
  mkState (alerts st) (cameras st) (selectedAlert st)
          (responsesSent st) (simulationTime st + 1000).

(** The effect with dependencies [simulationTime, cameras, alerts]. *)
Definition fireWindowEffect (E : Ambient) (st : State) : State :=
  let r := fireWindowPass E (simulationTime st) (cameras st) (alerts st) in
  mkState (snd r) (fst r) (selectedAlert st)
          (responsesSent st) (simulationTime st).

Definition setSelectedAlert (v : option FireAlert.t) (st : State) : State :=
  mkState (alerts st) (cameras st) v (responsesSent st) (simulationTime st).

Definition handleResolveAlert (alertId : string) (st : State) : State :=
  mkState (resolveById alertId (alerts st))
          (resetFireCameras (cameras st))
          None
          (responsesSent st) (simulationTime st).

Definition handleRequestResponse (alert : FireAlert.t) (st : State) : State :=
  handleResolveAlert (FireAlert.id alert)
    (mkState (alerts st) (cameras st) (selectedAlert st)
             (responsesSent st + 1) (simulationTime st)).

(** What can happen to the page: a clock tick or one of the callbacks
    handed to the child components. *)
Inductive Command : Type :=
| Tick
| SelectAlert (alert : option FireAlert.t)
| ResolveAlert (alertId : string)
| RequestResponse (alert : FireAlert.t).

Definition handle (c : Command) (st : State) : State :=
  match c with
  | Tick => tick st
  | SelectAlert alert => setSelectedAlert alert st
  | ResolveAlert alertId => handleResolveAlert alertId st
  | RequestResponse alert => handleRequestResponse alert st
  end.

(** A state change is followed by a render and by the fire-window
    effect of that render. *)
Definition step (st : State) (x : Ambient * Command) : State :=
  fireWindowEffect (fst x) (handle (snd x) st).

Definition run (trace : list (Ambient * Command)) (st : State) : State :=
  fold_left step trace st.

(** [getSelectedCamera]: [null] without a selection, otherwise what
    [cameras.find] gives, [undefined] when no camera has the id; the
    viewer treats both as "no camera". *)
Definition getSelectedCamera (st : State) : option SimulatedCamera.t :=
  match selectedAlert st with
  | None => None
  | Some alert =>
      find (fun c => String.eqb (SimulatedCamera.id c) (FireAlert.cameraId alert))
           (cameras st)
  end.

End Home.

(** ** The page with the detection backend, [src/unnamed/part_000] *)

(** What [await scanAll()] produced: an exception, a falsy value, or a
    result whose [cameras] field is the given list. *)
Inductive ScanOutcome : Type :=
| ScanThrows
| ScanNothing
| ScanResult (cameras : list BackendCamera.t).

(** What [await detectFire(url)] produced. *)
Inductive DetectOutcome : Type :=
| DetectThrows
| DetectNothing
| DetectResult (accuracy : Q).

Module BackendHome.

Record State : Type := mkState {
  alerts : list FireAlert.t;
  cameras : list SimulatedCamera.t;
  selectedAlert : option FireAlert.t;
  responsesSent : Z;
  simulationTime : Z;
  backendConnected : bool;
  useBackend : bool
}.

Definition initialCameras : list SimulatedCamera.t :=
  [ SimulatedCamera.mk "cam-1" "Downtown Block A" "Binan City"
      (407505 # 10000, - (739737 # 10000))%Q normal 0%Q
      "/city-street-downtown.jpg" [15000; 45000];
    SimulatedCamera.mk "cam-2" "Warehouse District" "Binan City"
      (40745 # 1000, - (73968 # 1000))%Q normal 0%Q
      "/warehouse-industrial-area.jpg" [25000; 55000];
    SimulatedCamera.mk "cam-3" "Residential Zone B" "Binan City"
      (40758 # 1000, - (739855 # 10000))%Q normal 0%Q
      "/residential-street.jpg" [35000; 65000];
    SimulatedCamera.mk "cam-4" "Park Avenue" "Binan City"
      (407614 # 10000, - (739776 # 10000))%Q normal 0%Q
      "/park-urban.jpg" [20000; 50000];
    SimulatedCamera.mk "cam-5" "Hudson Valley" "Binan City"
      (4073 # 100, - (74006 # 1000))%Q normal 0%Q
      "/harbor-waterfront.jpg" [40000; 70000] ].

(** [useState(false)] for [backendConnected], [useState(true)] for
    [useBackend]. *)
Definition initialState : State :=
  mkState [] [] None 0 0 false true.

Definition mount (st : State) : State :=
  mkState (alerts st) initialCameras (selectedAlert st)
          (responsesSent st) (simulationTime st)
          (backendConnected st) (useBackend st).

Definition tick (st : State) : State :=
  mkState (alerts st) (cameras st) (selectedAlert st)
          (responsesSent st) (simulationTime st + 1000)
          (backendConnected st) (useBackend st).

(** [checkBackend] once [await checkHealth()] has given [isHealthy]:
    [setBackendConnected(isHealthy)]; the branch after it only logs. *)
Definition checkBackend (isHealthy : bool) (st : State) : State :=
  mkState (alerts st) (cameras st) (selectedAlert st)
          (responsesSent st) (simulationTime st)
          isHealthy (useBackend st).

Definition setUseBackend (v : bool) (st : State) : State :=
  mkState (alerts st) (cameras st) (selectedAlert st)
          (responsesSent st) (simulationTime st)
          (backendConnected st) v.

Definition setSelectedAlert (v : option FireAlert.t) (st : State) : State :=
  mkState (alerts st) (cameras st) v
          (responsesSent st) (simulationTime st)
          (backendConnected st) (useBackend st).

(** The guard of the fire-window effect, [!backendConnected || !useBackend]:
    the page evaluates the scheduled fire windows itself. *)
Definition simulated (st : State) : bool :=
  negb (backendConnected st) || negb (useBackend st).

(** The effect with dependencies
    [simulationTime, cameras, alerts, backendConnected, useBackend]. *)
Definition fireWindowEffect (E : Ambient) (st : State) : State :=
  if negb (backendConnected st) || negb (useBackend st)
  then
    let r := fireWindowPass E (simulationTime st) (cameras st) (alerts st) in
    mkState (snd r) (fst r) (selectedAlert st)
            (responsesSent st) (simulationTime st)
            (backendConnected st) (useBackend st)
  else st.

(** The updater given to [setCameras] in [performBackendScan]. *)
Definition applyScanResult (result_cameras : list BackendCamera.t)
    (prev : list SimulatedCamera.t) : list SimulatedCamera.t :=
  map (fun camera =>
         match find (fun c => String.eqb (BackendCamera.camera_id c)
                                         (SimulatedCamera.id camera))
                    result_cameras with
         | Some backendStatus =>
             SimulatedCamera.with_status (BackendCamera.status backendStatus)
                                         (BackendCamera.confidence backendStatus)
                                         camera
         | None => camera
         end)
      prev.

(** [performBackendScan], the answer of [scanAll] being [outcome].  The
    hook [useFireDetectionAPI] is outside the page: what its calls give
    back is an input here.  The test of [backendConnected] and the
    updates that follow the [await] are taken at one point of the
    trace. *)
Definition performBackendScan (outcome : ScanOutcome) (st : State) : State :=
  if negb (backendConnected st)
  then setUseBackend false st
  else
    match outcome with
    | ScanResult result_cameras =>
        mkState (alerts st) (applyScanResult result_cameras (cameras st))
                (selectedAlert st) (responsesSent st) (simulationTime st)
                (backendConnected st) (useBackend st)
    | ScanNothing => st
    | ScanThrows => setUseBackend false st
    end.

(** [handleVideoViewerOpen], the answer of [detectFire] being
    [outcome]; the [catch] only logs. *)
Definition handleVideoViewerOpen (alert : option FireAlert.t)
    (outcome : DetectOutcome) (st : State) : State :=
  match alert with
  | None => st
  | Some alert =>
      if backendConnected st && useBackend st
      then
        match find (fun c => String.eqb (SimulatedCamera.id c) (FireAlert.cameraId alert))
                   (cameras st) with
        | Some camera =>
            match outcome with
            | DetectResult accuracy =>
                setSelectedAlert (Some (FireAlert.with_confidence accuracy alert)) st
            | DetectNothing => st
            | DetectThrows => st
            end
        | None => st
        end
      else setSelectedAlert (Some alert) st
  end.

Definition handleResolveAlert (alertId : string) (st : State) : State :=
  mkState (resolveById alertId (alerts st))
          (resetFireCameras (cameras st))
          None
          (responsesSent st) (simulationTime st)
          (backendConnected st) (useBackend st).

Definition handleRequestResponse (alert : FireAlert.t) (st : State) : State :=
  handleResolveAlert (FireAlert.id alert)
    (mkState (alerts st) (cameras st) (selectedAlert st)
             (responsesSent st + 1) (simulationTime st)
             (backendConnected st) (useBackend st)).

(** What can happen to the page.  [HealthProbe] is the completion of
    one [checkBackend]; [RequestScan] is a call of [performBackendScan]
    with what [scanAll] answered; [OpenAlert] a call of
    [handleVideoViewerOpen] with what [detectFire] answered. *)
Inductive Command : Type :=
| Tick
| HealthProbe (isHealthy : bool)
| RequestScan (outcome : ScanOutcome)
| OpenAlert (alert : option FireAlert.t) (outcome : DetectOutcome)
| CloseViewer
| ResolveAlert (alertId : string)
| RequestResponse (alert : FireAlert.t).

Definition handle (c : Command) (st : State) : State :=
  match c with
  | Tick => tick st
  | HealthProbe isHealthy => checkBackend isHealthy st
  | RequestScan outcome => performBackendScan outcome st
  | OpenAlert alert outcome => handleVideoViewerOpen alert outcome st
  | CloseViewer => setSelectedAlert None st
  | ResolveAlert alertId => handleResolveAlert alertId st
  | RequestResponse alert => handleRequestResponse alert st
  end.

Definition step (st : State) (x : Ambient * Command) : State :=
  fireWindowEffect (fst x) (handle (snd x) st).

Definition run (trace : list (Ambient * Command)) (st : State) : State :=
  fold_left step trace st.

(** [getSelectedCamera]: [null] without a selection, otherwise what
    [cameras.find] gives, [undefined] when no camera has the id; the
    viewer treats both as "no camera". *)
Definition getSelectedCamera (st : State) : option SimulatedCamera.t :=
  match selectedAlert st with
  | None => None
  | Some alert =>
      find (fun c => String.eqb (SimulatedCamera.id c) (FireAlert.cameraId alert))
           (cameras st)
  end.

End BackendHome.

(** ** The child components *)

(** [Dashboard], [src/unnamed/part_001]: the two numbers it hands to
    the statistics panel. *)
Module Dashboard.

(** [alerts.filter((a) => a.status === "active").length] *)
Definition activeAlerts (alerts : list FireAlert.t) : nat :=
  length (List.filter (fun a => AlertStatus_eqb (FireAlert.status a) active) alerts).

(** [alerts.filter((a) => a.status === "resolved").length] *)
Definition resolvedAlerts (alerts : list FireAlert.t) : nat :=
  length (List.filter (fun a => AlertStatus_eqb (FireAlert.status a) resolved) alerts).

End Dashboard.

(** [AlertPanel], [src/unnamed/part_002]: the lists behind its three
    sections. *)
Module AlertPanel.

Definition activeAlerts (alerts : list FireAlert.t) : list FireAlert.t :=
  List.filter (fun a => AlertStatus_eqb (FireAlert.status a) active) alerts.

Definition resolvedAlerts (alerts : list FireAlert.t) : list FireAlert.t :=
  List.filter (fun a => AlertStatus_eqb (FireAlert.status a) resolved) alerts.

(** [resolvedAlerts.slice(0, 3)], the entries of the "Resolved" card. *)
Definition shownResolved (alerts : list FireAlert.t) : list FireAlert.t :=
  take 3 (resolvedAlerts alerts).

(** [activeAlerts.length === 0 && resolvedAlerts.length === 0], the
    condition of the "No alerts at this time" block. *)
Definition noAlertsState (alerts : list FireAlert.t) : bool :=
  Nat.eqb (length (activeAlerts alerts)) 0 && Nat.eqb (length (resolvedAlerts alerts)) 0.

End AlertPanel.

(** [MapVisualization], [src/unnamed/part_003]: the marker table, a
    JavaScript [Map] keyed by camera id, and the click handler. *)
Module MapVisualization.

Record MarkerPosition : Type := mkMarker {
  cameraId : string;
  x : Q;
  y : Q;
  isActive : bool;
  confidence : Q
}.

(** The [cameras.forEach] of the effect that places the markers, from
    iteration [i] on; iteration [i] makes the draws [2 i] and [2 i + 1]
    of [Math.random()]. *)
Fixpoint placeMarkers (random : nat -> Q) (i : nat) (cameras : list SimulatedCamera.t)
    (positions : gmap string MarkerPosition) : gmap string MarkerPosition :=
  match cameras with
  | [] => positions
  | camera :: rest =>
      let randomX := (random (2 * i)%nat * 90 + 5)%Q in
      let randomY := (random (2 * i + 1)%nat * 90 + 5)%Q in
      placeMarkers random (S i) rest
        (<[SimulatedCamera.id camera :=
             mkMarker (SimulatedCamera.id camera) randomX randomY false 0%Q]> positions)
  end.

(** The effect with dependencies [imageLoaded, cameras]: the table it
    hands to [setMarkerPositions], or nothing when it returns before
    the call because the image is not loaded. *)
Definition placementEffect (imageLoaded : bool) (random : nat -> Q)
    (cameras : list SimulatedCamera.t) : option (gmap string MarkerPosition) :=
  if negb imageLoaded then None
  else Some (placeMarkers random 0 cameras ∅).

(** One iteration of the effect that refreshes the markers.  The
    marker read with [get] is the object the table holds, so assigning
    its fields changes the entry; the [set] under the [if] stores that
    same object again. *)
Definition refreshMarker (alerts : list FireAlert.t) (camera : SimulatedCamera.t)
    (newPositions : gmap string MarkerPosition) : gmap string MarkerPosition :=
  match newPositions !! SimulatedCamera.id camera with
  | Some marker =>
      let marker' :=
        mkMarker (cameraId marker) (x marker) (y marker)
                 (CameraStatus_eqb (SimulatedCamera.status camera) fire)
                 (SimulatedCamera.confidence camera) in
      let mutated := <[SimulatedCamera.id camera := marker']> newPositions in
      match find (fun a => String.eqb (FireAlert.cameraId a) (SimulatedCamera.id camera)
                           && AlertStatus_eqb (FireAlert.status a) active)
                 alerts with
      | Some alert =>
          if isActive marker'
          then <[SimulatedCamera.id camera := marker']> mutated
          else mutated
      | None => mutated
      end
  | None => newPositions
  end.

(** The effect with dependencies [cameras, alerts]: a copy of the
    table, refreshed camera by camera. *)
Definition refreshMarkers (alerts : list FireAlert.t) (cameras : list SimulatedCamera.t)
    (markerPositions : gmap string MarkerPosition) : gmap string MarkerPosition :=
  fold_left (fun newPositions camera => refreshMarker alerts camera newPositions)
            cameras markerPositions.

(** Which dependencies of the two effects differ from those of the
    previous commit (all of them at the first one). *)
Record Changed : Type := mkChanged {
  imageLoadedChanged : bool;
  camerasChanged : bool;
  alertsChanged : bool
}.

(** The marker table the component holds after one commit.  The
    placement effect runs first, when [imageLoaded] or [cameras]
    changed; the refresh effect runs after it, when [cameras] or
    [alerts] changed, on the table [markerPositions] captured by the
    render.  Both call [setMarkerPositions] with a value, so the call
    made last decides. *)
Definition commitMarkers (changed : Changed) (imageLoaded : bool) (random : nat -> Q)
    (cameras : list SimulatedCamera.t) (alerts : list FireAlert.t)
    (markerPositions : gmap string MarkerPosition) : gmap string MarkerPosition :=
  let afterPlacement :=
    if imageLoadedChanged changed || camerasChanged changed
    then match placementEffect imageLoaded random cameras with
         | Some positions => positions
         | None => markerPositions
         end
    else markerPositions in
  if camerasChanged changed || alertsChanged changed
  then refreshMarkers alerts cameras markerPositions
  else afterPlacement.

(** [handleMarkerClick]; [onSelectAlert] is the callback the page
    passes down, acting on the state of the page. *)
Definition handleMarkerClick {S : Type} (alerts : list FireAlert.t)
    (onSelectAlert : FireAlert.t -> S -> S) (cameraId : string) (st : S) : S :=
  match find (fun a => String.eqb (FireAlert.cameraId a) cameraId
                       && AlertStatus_eqb (FireAlert.status a) active)
             alerts with
  | Some alert => onSelectAlert alert st
  | None => st
  end.

(** The [isActive] computed when a marker is drawn: it colours the
    marker red and shows "Fire Detected". *)
Definition drawnActive (alerts : list FireAlert.t) (marker : MarkerPosition) : bool :=
  existsb (fun a => String.eqb (FireAlert.cameraId a) (cameraId marker)
                    && AlertStatus_eqb (FireAlert.status a) active)
          alerts.

End MapVisualization.

(** ** Predicates of the specification *)

(** [a] is an active alert of the camera with id [cid]. *)
Definition activeFor (cid : string) (a : FireAlert.t) : bool :=
  String.eqb (FireAlert.cameraId a) cid && AlertStatus_eqb (FireAlert.status a) active.

(** Some alert of the ledger is active and refers to [cid]. *)
Definition ActiveAlertFor (alerts : list FireAlert.t) (cid : string) : Prop :=
  exists a, a ∈ alerts /\ FireAlert.cameraId a = cid /\ FireAlert.status a = active.

(** The number of active alerts of the ledger that refer to [cid]. *)
Definition activeCount (cid : string) (alerts : list FireAlert.t) : nat :=
  length (List.filter (activeFor cid) alerts).

(** "At most one Active alert per [cameraId]". *)
Definition AtMostOneActive (alerts : list FireAlert.t) : Prop :=
  forall cid, (activeCount cid alerts <= 1)%nat.



(** The value bound to [confidence] in iteration [i] of the loop. *)
Definition confidenceAt (E : Ambient) (i : nat) : Q :=
  ((8 # 10) + mathRandom E i * (2 # 10))%Q.

(** The alerts one pass creates, in the order of their creation. *)
Fixpoint created (E : Ambient) (simulationTime : Z) (alerts : list FireAlert.t)
    (i : nat) (cameras : list SimulatedCamera.t) : list FireAlert.t :=
  match cameras with
  | [] => []
  | camera :: rest =>
      (if triggers simulationTime alerts camera
       then [newAlert (dateNow E i) (newDate E i) (confidenceAt E i) camera]
       else [])
      ++ created E simulationTime alerts (S i) rest
  end.

(** Some camera of [snapshot] with id [cid] passes the test of the
    loop body. *)
Definition TriggeredIn (simulationTime : Z) (alerts : list FireAlert.t)
    (snapshot : list SimulatedCamera.t) (cid : string) : Prop :=
  exists camera, camera ∈ snapshot
    /\ triggers simulationTime alerts camera = true
    /\ SimulatedCamera.id camera = cid.



(** ** Further notions used by the later results *)

(** The fields of a camera that no handler assigns. *)
Definition fixedFields (c : SimulatedCamera.t)
  : string * string * string * (Q * Q) * string * list Z :=
  (SimulatedCamera.id c, SimulatedCamera.name c, SimulatedCamera.location c,
   SimulatedCamera.coordinates c, SimulatedCamera.imageUrl c,
   SimulatedCamera.fireEventTimes c).

(** [a'] is [a] as it is or [a] resolved. *)
Definition laterOf (a a' : FireAlert.t) : Prop :=
  a' = a \/ a' = FireAlert.with_status resolved a.

(** Every alert of the ledger names a camera of the registry. *)
Definition AlertsNameCameras (cameras : list SimulatedCamera.t)
    (alerts : list FireAlert.t) : Prop :=
  forall a, a ∈ alerts -> FireAlert.cameraId a ∈ map SimulatedCamera.id cameras.

(** The number of ticks and of response requests in a trace. *)
Definition homeTicks (trace : list (Ambient * Home.Command)) : Z :=
  Z.of_nat (length (List.filter (fun x => match snd x with Home.Tick => true | _ => false end)
                                trace)).

Definition homeResponses (trace : list (Ambient * Home.Command)) : Z :=
  Z.of_nat (length (List.filter (fun x => match snd x with
                                          | Home.RequestResponse _ => true
                                          | _ => false
                                          end)
                                trace)).

Definition backendHomeTicks (trace : list (Ambient * BackendHome.Command)) : Z :=
  Z.of_nat (length (List.filter (fun x => match snd x with
                                          | BackendHome.Tick => true
                                          | _ => false
                                          end)
                                trace)).

Definition backendHomeResponses (trace : list (Ambient * BackendHome.Command)) : Z :=
  Z.of_nat (length (List.filter (fun x => match snd x with
                                          | BackendHome.RequestResponse _ => true
                                          | _ => false
                                          end)
                                trace)).

(** The ledger [new] continues the ledger [old]: it ends with the
    alerts of [old], in their order, each as it was or resolved. *)
Definition LedgerExtends (old new : list FireAlert.t) : Prop :=
  exists news olds', new = news ++ olds' /\ Forall2 laterOf old olds'.

(** The command of the backend page behind the same gesture of the
    user as a command of the simulation-only page; [d] is what
    [detectFire] would answer. *)
Definition toBackendCommand (d : DetectOutcome) (c : Home.Command) : BackendHome.Command :=
  match c with
  | Home.Tick => BackendHome.Tick
  | Home.SelectAlert (Some alert) => BackendHome.OpenAlert (Some alert) d
  | Home.SelectAlert None => BackendHome.CloseViewer
  | Home.ResolveAlert alertId => BackendHome.ResolveAlert alertId
  | Home.RequestResponse alert => BackendHome.RequestResponse alert
  end.

(** The cells the two pages have in common. *)
Definition toHomeState (st : BackendHome.State) : Home.State :=
  Home.mkState (BackendHome.alerts st) (BackendHome.cameras st)
               (BackendHome.selectedAlert st) (BackendHome.responsesSent st)
               (BackendHome.simulationTime st).

(** ** Concrete data for the scenarios *)

(** A host whose clock reads 1700000000000 and whose random generator
    returns one half. *)
Definition exampleAmbient : Ambient :=
  {| dateNow := fun _ => 1700000000000;
     newDate := fun _ => 1700000000000;
     mathRandom := fun _ => (1 # 2)%Q |}.

(** Nineteen ticks, which take the simulation to 19000 ms (cam-1 fires
    at 14000, cam-4 at 19000), then the resolution of the alert of
    cam-1. *)
Definition twoFiresThenResolve : list (Ambient * BackendHome.Command) :=
  repeat (exampleAmbient, BackendHome.Tick) 19
  ++ [(exampleAmbient, BackendHome.ResolveAlert "1700000000000cam-1")].

(** A health probe that fails, then one that succeeds. *)
Definition probeFalseThenTrue : list (Ambient * BackendHome.Command) :=
  [(exampleAmbient, BackendHome.HealthProbe false);
   (exampleAmbient, BackendHome.HealthProbe true)].

(** One camera with the two scheduled offsets 15000 and 15800. *)
Definition twoOffsetCamera : SimulatedCamera.t :=
  SimulatedCamera.mk "cam-1" "Smart City" "Binan City"
    (407505 # 10000, - (739737 # 10000))%Q normal 0%Q
    "/city-street-downtown.png" [15000; 15800].

Definition twoOffsetState : Home.State :=
  Home.mkState [] [twoOffsetCamera] None 0 0.

Definition twoOffsetBackendState : BackendHome.State :=
  BackendHome.mkState [] [twoOffsetCamera] None 0 0 false true.

Definition ticks (n : nat) : list (Ambient * Home.Command) :=
  repeat (exampleAmbient, Home.Tick) n.

Definition backendTicks (n : nat) : list (Ambient * BackendHome.Command) :=
  repeat (exampleAmbient, BackendHome.Tick) n.

(** The simulation-only page after nineteen ticks: cam-1 and cam-4 are
    in fire status and each has an active alert. *)
Definition twoFiresState : Home.State :=
  Eval vm_compute in Home.run (ticks 19) (Home.mount Home.initialState).

(** The same for the backend page, the backend never having answered. *)
Definition twoFiresBackendState : BackendHome.State :=
  Eval vm_compute in
    BackendHome.run (backendTicks 19) (BackendHome.mount BackendHome.initialState).

(** The backend page, connected, with its cameras mounted. *)
Definition connectedState : BackendHome.State :=
  BackendHome.checkBackend true (BackendHome.mount BackendHome.initialState).

(** A scan answer that says nothing about cam-3. *)
Definition scanWithoutCam3 : list BackendCamera.t :=
  [ BackendCamera.mk "cam-1" fire (9 # 10)%Q;
    BackendCamera.mk "cam-2" normal 0%Q;
    BackendCamera.mk "cam-4" fire (7 # 10)%Q;
    BackendCamera.mk "cam-5" normal 0%Q ].

(** Two cameras, A before B in the registry, both scheduled at 15000. *)
Definition sameTickState : Home.State :=
  Home.mkState []
    [ SimulatedCamera.mk "A" "Smart City" "Binan City" (0, 0)%Q normal 0%Q "/a.png" [15000];
      SimulatedCamera.mk "B" "Smart City" "Binan City" (0, 0)%Q normal 0%Q "/b.png" [15000] ]
    None 0 0.

(** The simulation-only page at the tick that takes the simulation to
    19000, before the fire-window effect of that tick has run: cam-1 is
    in fire status, cam-4 is about to be. *)
Definition beforeSecondFireState : Home.State :=
  Eval vm_compute in Home.tick (Home.run (ticks 18) (Home.mount Home.initialState)).

(** ** Basic facts *)

Lemma map_is_fmap {A B} (f : A -> B) (l : list A) : map f l = f <$> l.
Proof. reflexivity. Qed.

Lemma lookup_map {A B} (f : A -> B) (l : list A) (i : nat) :
  map f l !! i = f <$> (l !! i).
Proof. rewrite map_is_fmap. apply list_lookup_fmap. Qed.

Lemma elem_of_map {A B} (f : A -> B) (l : list A) (y : B) :
  y ∈ map f l <-> exists x, y = f x /\ x ∈ l.
Proof. rewrite map_is_fmap. apply list_elem_of_fmap. Qed.

Lemma AlertStatus_eqb_eq a b : AlertStatus_eqb a b = true <-> a = b.
Proof. destruct a, b; simpl; split; congruence. Qed.

Lemma CameraStatus_eqb_eq a b : CameraStatus_eqb a b = true <-> a = b.
Proof. destruct a, b; simpl; split; congruence. Qed.

Lemma with_status_same (a : FireAlert.t) :
  FireAlert.with_status (FireAlert.status a) a = a.
Proof. destruct a; reflexivity. Qed.

Lemma activeFor_true cid a :
  activeFor cid a = true <-> FireAlert.cameraId a = cid /\ FireAlert.status a = active.
Proof.
  unfold activeFor. rewrite andb_true_iff, String.eqb_eq, AlertStatus_eqb_eq.
  reflexivity.
Qed.

Lemma existsb_activeFor alerts cid :
  existsb (activeFor cid) alerts = true <-> ActiveAlertFor alerts cid.
Proof.
  rewrite existsb_exists. unfold ActiveAlertFor.
  split; intros [a [Ha Hb]]; exists a.
  - apply activeFor_true in Hb. rewrite list_elem_of_In. tauto.
  - rewrite list_elem_of_In in Ha. split; [tauto|]. apply activeFor_true. tauto.
Qed.

Lemma hasExistingAlert_true alerts camera :
  hasExistingAlert alerts camera = true
  <-> ActiveAlertFor alerts (SimulatedCamera.id camera).
Proof. apply existsb_activeFor. Qed.

Lemma activeCount_app cid l1 l2 :
  activeCount cid (l1 ++ l2) = (activeCount cid l1 + activeCount cid l2)%nat.
Proof. unfold activeCount. rewrite List.filter_app, length_app. reflexivity. Qed.

Lemma activeCount_rev cid l : activeCount cid (rev l) = activeCount cid l.
Proof.
  induction l as [|a l IH]; [reflexivity|].
  simpl rev. rewrite activeCount_app, IH. unfold activeCount. simpl.
  destruct (activeFor cid a); simpl; lia.
Qed.

Lemma activeCount_zero cid alerts :
  existsb (activeFor cid) alerts = false -> activeCount cid alerts = 0%nat.
Proof.
  unfold activeCount. induction alerts as [|a l IH]; simpl; [reflexivity|].
  destruct (activeFor cid a); simpl; [discriminate|]. exact IH.
Qed.

(** ** The fire-window pass *)

Section FireWindowPass.
Variable E : Ambient.
Variable simulationTime : Z.
Variable alerts : list FireAlert.t.

Lemma fireWindowBody_triggers i camera st :
  fireWindowBody E simulationTime alerts i camera st =
  if triggers simulationTime alerts camera
  then (markFire camera (confidenceAt E i) (fst st),
        newAlert (dateNow E i) (newDate E i) (confidenceAt E i) camera :: snd st)
  else st.
Proof.
  unfold fireWindowBody, triggers, confidenceAt.
  destruct (isFireTimeWindow simulationTime camera); simpl; [|reflexivity].
  destruct (CameraStatus_eqb (SimulatedCamera.status camera) normal); simpl;
    [|reflexivity].
  destruct (hasExistingAlert alerts camera); reflexivity.
Qed.

Lemma triggers_true camera :
  triggers simulationTime alerts camera = true <->
  isFireTimeWindow simulationTime camera = true
  /\ SimulatedCamera.status camera = normal
  /\ ~ ActiveAlertFor alerts (SimulatedCamera.id camera).
Proof.
  unfold triggers.
  rewrite !andb_true_iff, CameraStatus_eqb_eq, negb_true_iff.
  rewrite <- hasExistingAlert_true, not_true_iff_false. tauto.
Qed.

(** The ledger after the loop: the created alerts, newest first, in
    front of what was there. *)
Lemma forEachCamera_snd snapshot : forall i st,
  snd (forEachCamera E simulationTime alerts i snapshot st) =
  rev (created E simulationTime alerts i snapshot) ++ snd st.
Proof.
  induction snapshot as [|camera rest IH]; intros i st; [reflexivity|].
  cbn [forEachCamera created]. rewrite IH, fireWindowBody_triggers.
  destruct (triggers simulationTime alerts camera); [|reflexivity].
  cbn [app rev snd]. rewrite <- app_assoc. reflexivity.
Qed.

Lemma markFire_lookup camera q prev j :
  markFire camera q prev !! j =
  (fun c => if String.eqb (SimulatedCamera.id c) (SimulatedCamera.id camera)
            then SimulatedCamera.with_status fire q c else c) <$> (prev !! j).
Proof. apply lookup_map. Qed.

Lemma markFire_ids camera q prev :
  map SimulatedCamera.id (markFire camera q prev) = map SimulatedCamera.id prev.
Proof.
  unfold markFire. rewrite map_map. apply map_ext. intros c.
  destruct (String.eqb _ _); reflexivity.
Qed.

Lemma forEachCamera_ids snapshot : forall i st,
  map SimulatedCamera.id (fst (forEachCamera E simulationTime alerts i snapshot st)) =
  map SimulatedCamera.id (fst st).
Proof.
  induction snapshot as [|camera rest IH]; intros i st; [reflexivity|].
  cbn [forEachCamera]. rewrite IH, fireWindowBody_triggers.
  destruct (triggers simulationTime alerts camera); [|reflexivity].
  apply markFire_ids.
Qed.

(** The registry after the loop, entry by entry: same id, and fire
    status exactly when it was fire or a camera with that id passed
    the test. *)
Lemma forEachCamera_fst_lookup snapshot : forall i st j c,
  fst st !! j = Some c ->
  exists c', fst (forEachCamera E simulationTime alerts i snapshot st) !! j = Some c'
    /\ SimulatedCamera.id c' = SimulatedCamera.id c
    /\ (SimulatedCamera.status c' = fire <->
        SimulatedCamera.status c = fire \/ TriggeredIn simulationTime alerts snapshot (SimulatedCamera.id c))
    /\ (~ TriggeredIn simulationTime alerts snapshot (SimulatedCamera.id c) -> c' = c).
Proof.
  induction snapshot as [|camera rest IH]; intros i st j c Hj.
  - exists c. cbn [forEachCamera]. repeat split; auto.
    intros [H|[x [Hx _]]]; [exact H|]. inversion Hx.
  - cbn [forEachCamera]. rewrite fireWindowBody_triggers.
    destruct (triggers simulationTime alerts camera) eqn:Ht.
    + destruct (String.eqb (SimulatedCamera.id c) (SimulatedCamera.id camera)) eqn:Hid.
      * apply String.eqb_eq in Hid.
        edestruct (IH (S i)
                      (markFire camera (confidenceAt E i) (fst st),
                       newAlert (dateNow E i) (newDate E i) (confidenceAt E i) camera :: snd st)
                      j (SimulatedCamera.with_status fire (confidenceAt E i) c))
          as [c' [H1 [H2 [H3 H4]]]].
        { cbn [fst]. rewrite markFire_lookup, Hj. cbn.
          apply String.eqb_eq in Hid. rewrite Hid. reflexivity. }
        exists c'. split; [exact H1|]. split; [exact H2|]. split.
        -- split; [|intros _; apply H3; left; reflexivity].
           intros _. right. exists camera. split; [left|]. auto.
        -- intros Hn. exfalso. apply Hn. exists camera. split; [left|]. auto.
      * edestruct (IH (S i)
                      (markFire camera (confidenceAt E i) (fst st),
                       newAlert (dateNow E i) (newDate E i) (confidenceAt E i) camera :: snd st)
                      j c)
          as [c' [H1 [H2 [H3 H4]]]].
        { cbn [fst]. rewrite markFire_lookup, Hj. cbn. rewrite Hid. reflexivity. }
        assert (Hequiv : TriggeredIn simulationTime alerts (camera :: rest) (SimulatedCamera.id c)
                         <-> TriggeredIn simulationTime alerts rest (SimulatedCamera.id c)).
        { split; intros [x [Hx [Hxt Hxi]]].
          - apply elem_of_cons in Hx as [->|Hx].
            + rewrite Hxi, String.eqb_refl in Hid. discriminate.
            + exists x. auto.
          - exists x. split; [right|]; auto. }
        exists c'. rewrite Hequiv. auto.
    + destruct (IH (S i) st j c Hj) as [c' [H1 [H2 [H3 H4]]]].
      assert (Hequiv : TriggeredIn simulationTime alerts (camera :: rest) (SimulatedCamera.id c)
                       <-> TriggeredIn simulationTime alerts rest (SimulatedCamera.id c)).
      { split; intros [x [Hx [Hxt Hxi]]].
        - apply elem_of_cons in Hx as [->|Hx]; [congruence|]. exists x. auto.
        - exists x. split; [right|]; auto. }
      exists c'. rewrite Hequiv. auto.
Qed.

(** The created alerts are active and belong to the cameras that
    passed the test. *)
Lemma created_elem snapshot : forall i a,
  a ∈ created E simulationTime alerts i snapshot ->
  FireAlert.status a = active
  /\ TriggeredIn simulationTime alerts snapshot (FireAlert.cameraId a).
Proof.
  induction snapshot as [|camera rest IH]; intros i a Ha; [inversion Ha|].
  cbn [created] in Ha. apply elem_of_app in Ha as [Ha|Ha].
  - destruct (triggers simulationTime alerts camera) eqn:Ht; [|inversion Ha].
    apply list_elem_of_singleton in Ha. subst a. split; [reflexivity|].
    exists camera. split; [left|]. auto.
  - destruct (IH _ _ Ha) as [H1 [x [Hx [Hxt Hxi]]]]. split; [exact H1|].
    exists x. split; [right|]; auto.
Qed.

Lemma created_active snapshot i cid :
  ActiveAlertFor (created E simulationTime alerts i snapshot) cid
  <-> TriggeredIn simulationTime alerts snapshot cid.
Proof.
  split.
  - intros [a [Ha [Hc _]]]. apply created_elem in Ha as [_ Ht]. congruence.
  - revert i. induction snapshot as [|camera rest IH]; intros i [x [Hx [Hxt Hxi]]];
      [inversion Hx|].
    apply elem_of_cons in Hx as [->|Hx].
    + eexists. split.
      * cbn [created]. rewrite Hxt. left.
      * split; [exact Hxi | reflexivity].
    + destruct (IH (S i)) as [a [Ha Hb]]; [exists x; auto|].
      exists a. split; [|exact Hb].
      cbn [created]. apply elem_of_app. right. exact Ha.
Qed.

End FireWindowPass.

(** ** What one pass preserves *)

Lemma ActiveAlertFor_app l1 l2 cid :
  ActiveAlertFor (l1 ++ l2) cid <-> ActiveAlertFor l1 cid \/ ActiveAlertFor l2 cid.
Proof.
  unfold ActiveAlertFor. split.
  - intros [a [Ha Hb]]. apply elem_of_app in Ha as [Ha|Ha]; [left|right]; eauto.
  - intros [[a [Ha Hb]]|[a [Ha Hb]]]; exists a; rewrite elem_of_app; auto.
Qed.

Lemma ActiveAlertFor_rev l cid :
  ActiveAlertFor (rev l) cid <-> ActiveAlertFor l cid.
Proof.
  unfold ActiveAlertFor.
  split; intros [a [Ha Hb]]; exists a; split; auto;
    rewrite list_elem_of_In in *; [apply in_rev | apply in_rev in Ha]; exact Ha.
Qed.

Lemma fireWindowPass_lookup E t cameras alerts j c' :
  fst (fireWindowPass E t cameras alerts) !! j = Some c' ->
  exists c, cameras !! j = Some c
    /\ SimulatedCamera.id c' = SimulatedCamera.id c
    /\ (SimulatedCamera.status c' = fire <->
        SimulatedCamera.status c = fire \/ TriggeredIn t alerts cameras (SimulatedCamera.id c))
    /\ (~ TriggeredIn t alerts cameras (SimulatedCamera.id c) -> c' = c).
Proof.
  intros Hj.
  assert (Hlen : length (fst (fireWindowPass E t cameras alerts)) = length cameras).
  { rewrite <- (length_map SimulatedCamera.id), <- (length_map SimulatedCamera.id cameras).
    unfold fireWindowPass. rewrite forEachCamera_ids. reflexivity. }
  assert (Hlt : (j < length cameras)%nat).
  { rewrite <- Hlen. apply lookup_lt_is_Some. eauto. }
  apply lookup_lt_is_Some in Hlt as [c Hc].
  destruct (forEachCamera_fst_lookup E t alerts cameras 0%nat (cameras, alerts) j c Hc)
    as [c'' [H1 H2]].
  unfold fireWindowPass in Hj. rewrite Hj in H1. injection H1 as <-.
  exists c. auto.
Qed.

Lemma fireWindowPass_alerts E t cameras alerts :
  snd (fireWindowPass E t cameras alerts) =
  rev (created E t alerts 0 cameras) ++ alerts.
Proof. unfold fireWindowPass. apply forEachCamera_snd. Qed.

Lemma fireWindowPass_ids E t cameras alerts :
  map SimulatedCamera.id (fst (fireWindowPass E t cameras alerts)) =
  map SimulatedCamera.id cameras.
Proof. unfold fireWindowPass. apply forEachCamera_ids. Qed.

Lemma fireWindowPass_active E t cameras alerts cid :
  ActiveAlertFor (snd (fireWindowPass E t cameras alerts)) cid
  <-> TriggeredIn t alerts cameras cid \/ ActiveAlertFor alerts cid.
Proof.
  rewrite fireWindowPass_alerts, ActiveAlertFor_app, ActiveAlertFor_rev, created_active.
  reflexivity.
Qed.



(** Counting the created alerts of one camera id. *)
Lemma created_count_le E t alerts cid snapshot : forall i,
  (activeCount cid (created E t alerts i snapshot)
   <= length (List.filter (fun c => String.eqb (SimulatedCamera.id c) cid) snapshot))%nat.
Proof.
  induction snapshot as [|camera rest IH]; intros i; [reflexivity|].
  cbn [created List.filter]. rewrite activeCount_app. specialize (IH (S i)).
  destruct (triggers t alerts camera).
  - unfold activeCount at 1. cbn. unfold activeFor. cbn.
    destruct (String.eqb (SimulatedCamera.id camera) cid); cbn; lia.
  - unfold activeCount at 1. cbn.
    destruct (String.eqb (SimulatedCamera.id camera) cid); cbn; lia.
Qed.

Lemma filter_id_NoDup cid (cameras : list SimulatedCamera.t) :
  NoDup (map SimulatedCamera.id cameras) ->
  (length (List.filter (fun c => String.eqb (SimulatedCamera.id c) cid) cameras) <= 1)%nat.
Proof.
  induction cameras as [|camera rest IH]; intros Hnd; [cbn; lia|].
  cbn [map] in Hnd. apply NoDup_cons in Hnd as [Hnotin Hnd].
  cbn [List.filter].
  destruct (String.eqb (SimulatedCamera.id camera) cid) eqn:Hid; [|auto].
  apply String.eqb_eq in Hid. subst cid.
  assert (Hnil : List.filter
                   (fun c => String.eqb (SimulatedCamera.id c) (SimulatedCamera.id camera))
                   rest = []).
  { clear IH Hnd. induction rest as [|c rest' IH']; [reflexivity|].
    cbn [List.filter map] in *.
    destruct (String.eqb (SimulatedCamera.id c) (SimulatedCamera.id camera)) eqn:Hc.
    - apply String.eqb_eq in Hc. exfalso. apply Hnotin. rewrite Hc. left.
    - apply IH'. intros Hin. apply Hnotin. right. exact Hin. }
  rewrite Hnil. cbn. lia.
Qed.

Lemma created_count_zero E t alerts cid snapshot : forall i,
  existsb (activeFor cid) alerts = true ->
  activeCount cid (created E t alerts i snapshot) = 0%nat.
Proof.
  intros i Hex. unfold activeCount.
  destruct (List.filter (activeFor cid) (created E t alerts i snapshot))
    as [|a l] eqn:Hf; [reflexivity|].
  exfalso.
  assert (Ha : In a (List.filter (activeFor cid) (created E t alerts i snapshot))).
  { rewrite Hf. left. reflexivity. }
  apply filter_In in Ha as [Ha Hact].
  apply list_elem_of_In, created_elem in Ha as [_ [camera [_ [Ht Hid]]]].
  apply activeFor_true in Hact as [Hcid _].
  apply triggers_true in Ht as [_ [_ Hno]]. apply Hno.
  rewrite Hid, Hcid. apply existsb_activeFor. exact Hex.
Qed.

Lemma fireWindowPass_AtMostOneActive E t cameras alerts :
  NoDup (map SimulatedCamera.id cameras) ->
  AtMostOneActive alerts ->
  AtMostOneActive (snd (fireWindowPass E t cameras alerts)).
Proof.
  intros Hnd Hone cid.
  rewrite fireWindowPass_alerts, activeCount_app, activeCount_rev.
  destruct (existsb (activeFor cid) alerts) eqn:Hex.
  - rewrite created_count_zero by exact Hex. apply Hone.
  - rewrite (activeCount_zero cid alerts Hex).
    pose proof (created_count_le E t alerts cid cameras 0).
    pose proof (filter_id_NoDup cid cameras Hnd). lia.
Qed.

(** The effect changes [cameras] and [alerts], which are among its
    dependencies, so React runs it once more after the render that
    follows.  That second run changes nothing: one pass per state
    change is the whole behaviour. *)
Lemma forEachCamera_no_trigger E t alerts snapshot : forall i st,
  (forall c, c ∈ snapshot -> triggers t alerts c = false) ->
  forEachCamera E t alerts i snapshot st = st.
Proof.
  induction snapshot as [|camera rest IH]; intros i st H; [reflexivity|].
  cbn [forEachCamera]. rewrite fireWindowBody_triggers, (H camera) by left.
  apply IH. intros c Hc. apply H. right. exact Hc.
Qed.

Lemma fireWindowPass_settles E E' t cameras alerts :
  fireWindowPass E' t (fst (fireWindowPass E t cameras alerts))
                      (snd (fireWindowPass E t cameras alerts))
  = fireWindowPass E t cameras alerts.
Proof.
  unfold fireWindowPass at 1. rewrite forEachCamera_no_trigger.
  - destruct (fireWindowPass E t cameras alerts); reflexivity.
  - intros c' Hin. apply not_true_iff_false. intros Ht.
    apply triggers_true in Ht as [Hw [Hn Hno]].
    apply list_elem_of_lookup in Hin as [j Hj].
    apply fireWindowPass_lookup in Hj as [c [Hc [Hid [Hst Hsame]]]].
    rewrite fireWindowPass_active, Hid in Hno.
    assert (Hc' : c' = c) by (apply Hsame; tauto). subst c'.
    apply Hno. left. exists c. split; [eapply list_elem_of_lookup_2; eauto|].
    split; [|reflexivity]. apply triggers_true. tauto.
Qed.

(** ** Resolution and reset *)

Lemma resolveById_lookup alertId prev i :
  resolveById alertId prev !! i =
  (fun alert => if String.eqb (FireAlert.id alert) alertId
                then FireAlert.with_status resolved alert else alert) <$> (prev !! i).
Proof. apply lookup_map. Qed.

Lemma resolveById_length alertId prev :
  length (resolveById alertId prev) = length prev.
Proof. apply length_map. Qed.

Lemma resolveById_activeCount alertId cid prev :
  (activeCount cid (resolveById alertId prev) <= activeCount cid prev)%nat.
Proof.
  unfold activeCount, resolveById.
  induction prev as [|a l IH]; [reflexivity|]. cbn [map List.filter].
  destruct (String.eqb (FireAlert.id a) alertId).
  - unfold activeFor at 1. cbn. rewrite andb_false_r.
    destruct (activeFor cid a); cbn; lia.
  - destruct (activeFor cid a); cbn; lia.
Qed.

Lemma resolveById_noop alertId prev :
  (forall a, a ∈ prev -> FireAlert.id a = alertId -> FireAlert.status a = resolved) ->
  resolveById alertId prev = prev.
Proof.
  intros H. unfold resolveById.
  induction prev as [|a l IH]; [reflexivity|]. cbn [map]. f_equal.
  - destruct (String.eqb (FireAlert.id a) alertId) eqn:Hid; [|reflexivity].
    apply String.eqb_eq in Hid.
    rewrite <- (H a) by (auto; left). apply with_status_same.
  - apply IH. intros b Hb. apply H. right. exact Hb.
Qed.

Lemma resetFireCameras_lookup prev i :
  resetFireCameras prev !! i =
  (fun camera => if CameraStatus_eqb (SimulatedCamera.status camera) fire
                 then SimulatedCamera.with_status normal 0%Q camera else camera)
    <$> (prev !! i).
Proof. apply lookup_map. Qed.

Lemma resetFireCameras_normal prev c :
  c ∈ resetFireCameras prev -> SimulatedCamera.status c = normal.
Proof.
  intros Hin. apply elem_of_map in Hin as [x [-> _]].
  destruct (SimulatedCamera.status x) eqn:Hs; cbn; [exact Hs | reflexivity].
Qed.

Lemma resetFireCameras_ids prev :
  map SimulatedCamera.id (resetFireCameras prev) = map SimulatedCamera.id prev.
Proof.
  unfold resetFireCameras. rewrite map_map. apply map_ext. intros c.
  destruct (CameraStatus_eqb _ _); reflexivity.
Qed.

Lemma append_inj_l (s a b : string) : String.append s a = String.append s b -> a = b.
Proof.
  induction s as [|ch s IH]; cbn; intros H; [exact H|].
  injection H as H. apply IH, H.
Qed.

Lemma applyScanResult_lookup result_cameras prev i :
  BackendHome.applyScanResult result_cameras prev !! i =
  (fun camera =>
     match find (fun c => String.eqb (BackendCamera.camera_id c) (SimulatedCamera.id camera))
                result_cameras with
     | Some backendStatus =>
         SimulatedCamera.with_status (BackendCamera.status backendStatus)
                                     (BackendCamera.confidence backendStatus) camera
     | None => camera
     end) <$> (prev !! i).
Proof. apply lookup_map. Qed.

Lemma applyScanResult_ids result_cameras prev :
  map SimulatedCamera.id (BackendHome.applyScanResult result_cameras prev) =
  map SimulatedCamera.id prev.
Proof.
  unfold BackendHome.applyScanResult. rewrite map_map. apply map_ext. intros c.
  destruct (find _ _); reflexivity.
Qed.

Lemma find_absent (result_cameras : list BackendCamera.t) (cid : string) :
  (forall c, c ∈ result_cameras -> BackendCamera.camera_id c <> cid) ->
  find (fun c => String.eqb (BackendCamera.camera_id c) cid) result_cameras = None.
Proof.
  intros H. destruct (find _ _) as [c|] eqn:Hf; [|reflexivity].
  apply find_some in Hf as [Hin Heq]. apply String.eqb_eq in Heq.
  exfalso. apply (H c); [apply list_elem_of_In, Hin | exact Heq].
Qed.

(** ** The claims about single commands *)

(** C2. [handleResolveAlert] of [src/app/page.tsx], for every alert id
    and every state: each camera whose status is fire, at whatever
    position of the registry and whatever alert it belongs to, is
    afterwards at that position with status normal and confidence 0,
    its other fields as they were; each alert whose id is the given one
    is afterwards at its position with status resolved, its other
    fields as they were. *)
Theorem C2_resolve_resets_every_fire_camera (alertId : string) (st : Home.State) :
  (forall i camera,
      Home.cameras st !! i = Some camera ->
      SimulatedCamera.status camera = fire ->
      Home.cameras (Home.handleResolveAlert alertId st) !! i
      = Some (SimulatedCamera.mk (SimulatedCamera.id camera) (SimulatedCamera.name camera)
                (SimulatedCamera.location camera) (SimulatedCamera.coordinates camera)
                normal 0%Q
                (SimulatedCamera.imageUrl camera) (SimulatedCamera.fireEventTimes camera)))
  /\ (forall i alert,
      Home.alerts st !! i = Some alert ->
      FireAlert.id alert = alertId ->
      Home.alerts (Home.handleResolveAlert alertId st) !! i
      = Some (FireAlert.mk (FireAlert.id alert) (FireAlert.location alert)
                (FireAlert.address alert) (FireAlert.timestamp alert)
                (FireAlert.confidence alert) (FireAlert.coordinates alert)
                (FireAlert.cameraId alert) resolved)).
Proof.
  split.
  - intros i camera Hi Hfire. cbn [Home.handleResolveAlert Home.cameras].
    rewrite resetFireCameras_lookup, Hi. cbn. rewrite Hfire. reflexivity.
  - intros i alert Hi Hid. cbn [Home.handleResolveAlert Home.alerts].
    rewrite resolveById_lookup, Hi. cbn.
    apply String.eqb_eq in Hid. rewrite Hid. reflexivity.
Qed.

(** Resolving the alert of cam-1 while cam-4 (position 3) is in fire
    status too: cam-4 is normal with confidence 0 afterwards, and the
    alert of cam-1 (position 1 of the ledger) is resolved. *)
Lemma C2_witness :
  SimulatedCamera.status <$> (Home.cameras twoFiresState !! 3%nat) = Some fire
  /\ FireAlert.status <$> (Home.alerts twoFiresState !! 1%nat) = Some active
  /\ Home.cameras (Home.handleResolveAlert "1700000000000cam-1" twoFiresState) !! 3%nat
     = Some (SimulatedCamera.mk "cam-4" "Smart City" "Binan City"
               (407614 # 10000, - (739776 # 10000))%Q normal 0%Q
               "/park-urban.png" [20000; 50000])
  /\ Home.alerts (Home.handleResolveAlert "1700000000000cam-1" twoFiresState) !! 1%nat
     = Some (FireAlert.mk "1700000000000cam-1" "Smart City" "Binan City" 1700000000000
               (180 # 200)%Q (407505 # 10000, - (739737 # 10000))%Q "cam-1" resolved).
Proof.
  split; [reflexivity|]. split; [reflexivity|]. split.
  - exact (proj1 (C2_resolve_resets_every_fire_camera "1700000000000cam-1" twoFiresState)
                 3%nat _ eq_refl eq_refl).
  - exact (proj2 (C2_resolve_resets_every_fire_camera "1700000000000cam-1" twoFiresState)
                 1%nat _ eq_refl eq_refl).
Defined.

(** C5. [handleRequestResponse] of [src/app/page.tsx], for every state
    and every alert: the counter of responses grows by exactly 1, every
    alert of the ledger that carries the id of the given alert is
    resolved afterwards, and the given alert, when it is in the ledger,
    is there with status resolved, whatever its status was. *)
Theorem C5_request_response (alert : FireAlert.t) (st : Home.State) :
  Home.responsesSent (Home.handleRequestResponse alert st) = Home.responsesSent st + 1
  /\ (forall a, a ∈ Home.alerts (Home.handleRequestResponse alert st) ->
        FireAlert.id a = FireAlert.id alert -> FireAlert.status a = resolved)
  /\ (forall i, Home.alerts st !! i = Some alert ->
        Home.alerts (Home.handleRequestResponse alert st) !! i
        = Some (FireAlert.with_status resolved alert)).
Proof.
  split; [reflexivity|]. split.
  - intros a Ha Hid. cbn in Ha. apply elem_of_map in Ha as [x [-> Hx]].
    destruct (String.eqb (FireAlert.id x) (FireAlert.id alert)) eqn:Hx'; [reflexivity|].
    apply String.eqb_neq in Hx'. contradiction.
  - intros i Hi.
    cbn [Home.handleRequestResponse Home.handleResolveAlert Home.alerts].
    rewrite resolveById_lookup, Hi. cbn.
    rewrite String.eqb_refl. reflexivity.
Qed.

(** Requesting a response for the alert of cam-1, then once more for
    the same alert, now resolved: the second call leaves it resolved and
    counts again. *)
Lemma C5_witness :
  exists alert,
    Home.alerts twoFiresState !! 1%nat = Some alert
    /\ FireAlert.status alert = active
    /\ Home.alerts (Home.handleRequestResponse (FireAlert.with_status resolved alert)
                      (Home.handleRequestResponse alert twoFiresState)) !! 1%nat
       = Some (FireAlert.with_status resolved (FireAlert.with_status resolved alert))
    /\ Home.responsesSent (Home.handleRequestResponse (FireAlert.with_status resolved alert)
                             (Home.handleRequestResponse alert twoFiresState)) = 2.
Proof.
  eexists. split; [reflexivity|]. split; [reflexivity|]. split; [|reflexivity].
  apply (proj2 (proj2 (C5_request_response _ _))).
  apply (proj2 (proj2 (C5_request_response _ _))).
  reflexivity.
Defined.

(** C8. Resolution, [handleResolveAlert] of [src/app/page.tsx], seen
    from the ledger: it keeps every entry (same length, entry by
    entry); the entry at a position changes exactly when its id is the
    given one and its status is active, and then it is the same alert
    with status resolved; when every alert that carries the id is
    already resolved, in particular when none carries it, the ledger is
    left as it was. *)
Theorem C8_resolve_only_matching_active (alertId : string) (st : Home.State) :
  length (Home.alerts (Home.handleResolveAlert alertId st)) = length (Home.alerts st)
  /\ (forall i a,
        Home.alerts st !! i = Some a ->
        Home.alerts (Home.handleResolveAlert alertId st) !! i
        = Some (if String.eqb (FireAlert.id a) alertId
                   && AlertStatus_eqb (FireAlert.status a) active
                then FireAlert.mk (FireAlert.id a) (FireAlert.location a)
                       (FireAlert.address a) (FireAlert.timestamp a)
                       (FireAlert.confidence a) (FireAlert.coordinates a)
                       (FireAlert.cameraId a) resolved
                else a))
  /\ ((forall a, a ∈ Home.alerts st -> FireAlert.id a = alertId ->
                 FireAlert.status a = resolved) ->
      Home.alerts (Home.handleResolveAlert alertId st) = Home.alerts st).
Proof.
  cbn [Home.handleResolveAlert Home.alerts]. split; [apply resolveById_length|]. split.
  - intros i a Hi. rewrite resolveById_lookup, Hi. cbn. f_equal.
    destruct (String.eqb (FireAlert.id a) alertId); [|reflexivity].
    destruct (FireAlert.status a) eqn:Hs; cbn; [reflexivity|].
    destruct a; cbn in Hs |- *. rewrite Hs. reflexivity.
  - apply resolveById_noop.
Qed.

(** An id that no alert carries leaves the two alerts of the ledger as
    they are; the id of the alert of cam-1 leaves the alert of cam-4
    active and makes the alert of cam-1 resolved. *)
Lemma C8_witness :
  Home.alerts (Home.handleResolveAlert "no-such-alert" twoFiresState)
  = Home.alerts twoFiresState
  /\ FireAlert.status <$> (Home.alerts twoFiresState !! 1%nat) = Some active
  /\ Home.alerts (Home.handleResolveAlert "1700000000000cam-1" twoFiresState) !! 0%nat
     = Some (FireAlert.mk "1700000000000cam-4" "Smart City" "Binan City" 1700000000000
               (180 # 200)%Q (407614 # 10000, - (739776 # 10000))%Q "cam-4" active)
  /\ Home.alerts (Home.handleResolveAlert "1700000000000cam-1" twoFiresState) !! 1%nat
     = Some (FireAlert.mk "1700000000000cam-1" "Smart City" "Binan City" 1700000000000
               (180 # 200)%Q (407505 # 10000, - (739737 # 10000))%Q "cam-1" resolved).
Proof.
  split; [|split; [reflexivity|split]].
  - apply (proj2 (proj2 (C8_resolve_only_matching_active "no-such-alert" twoFiresState))).
    intros a Ha Hid.
    repeat (apply elem_of_cons in Ha as [->|Ha]; [discriminate Hid|]).
    inversion Ha.
  - exact (proj1 (proj2 (C8_resolve_only_matching_active
                           "1700000000000cam-1" twoFiresState)) 0%nat _ eq_refl).
  - exact (proj1 (proj2 (C8_resolve_only_matching_active
                           "1700000000000cam-1" twoFiresState)) 1%nat _ eq_refl).
Defined.



(** C9. The id of a new alert is the decimal text of [Date.now()]
    followed by the id of the camera, so two alerts made at the same
    clock value for cameras with different ids have different ids. *)
Theorem C9_same_tick_ids_distinct (now date1 date2 : Z) (q1 q2 : Q)
    (camera1 camera2 : SimulatedCamera.t) :
  SimulatedCamera.id camera1 <> SimulatedCamera.id camera2 ->
  FireAlert.id (newAlert now date1 q1 camera1)
  = String.append (toString now) (SimulatedCamera.id camera1)
  /\ FireAlert.id (newAlert now date2 q2 camera2)
     = String.append (toString now) (SimulatedCamera.id camera2)
  /\ FireAlert.id (newAlert now date1 q1 camera1)
     <> FireAlert.id (newAlert now date2 q2 camera2).
Proof.
  intros Hne. split; [reflexivity|]. split; [reflexivity|].
  cbn [newAlert FireAlert.id]. intros H. apply Hne. eapply append_inj_l, H.
Qed.

(** cam-1 and cam-2 of the registry, at one clock value. *)
Lemma C9_witness :
  exists camera1 camera2,
    Home.initialCameras !! 0%nat = Some camera1
    /\ Home.initialCameras !! 1%nat = Some camera2
    /\ FireAlert.id (newAlert 1700000000000 1700000000000 (9 # 10)%Q camera1)
       <> FireAlert.id (newAlert 1700000000000 1700000000001 (8 # 10)%Q camera2).
Proof.
  eexists. eexists. split; [reflexivity|]. split; [reflexivity|].
  apply (C9_same_tick_ids_distinct 1700000000000 1700000000000 1700000000001).
  cbn. discriminate.
Defined.

(** C7. [performBackendScan], for every answer of [scanAll] and every
    camera of the registry that no entry of the answer names: the
    camera is afterwards at the same position with the same fields, in
    particular the same status and confidence. *)
Theorem C7_absent_camera_unchanged (outcome : ScanOutcome) (st : BackendHome.State)
    (i : nat) (camera : SimulatedCamera.t) :
  BackendHome.cameras st !! i = Some camera ->
  (forall result_cameras c,
      outcome = ScanResult result_cameras ->
      c ∈ result_cameras ->
      BackendCamera.camera_id c <> SimulatedCamera.id camera) ->
  BackendHome.cameras (BackendHome.performBackendScan outcome st) !! i = Some camera.
Proof.
  intros Hi Habs. unfold BackendHome.performBackendScan.
  destruct (negb (BackendHome.backendConnected st)); [exact Hi|].
  destruct outcome as [| |result_cameras]; try exact Hi.
  cbn [BackendHome.cameras]. rewrite applyScanResult_lookup, Hi. cbn.
  rewrite find_absent; [reflexivity|].
  intros c Hc. exact (Habs result_cameras c eq_refl Hc).
Qed.

(** The answer without cam-3 is applied to the connected page: cam-3
    keeps its status and confidence, cam-1 takes the reported ones. *)
Lemma C7_witness :
  exists camera,
    BackendHome.cameras connectedState !! 2%nat = Some camera
    /\ SimulatedCamera.id camera = "cam-3"
    /\ BackendHome.cameras
         (BackendHome.performBackendScan (ScanResult scanWithoutCam3) connectedState)
       !! 2%nat = Some camera
    /\ SimulatedCamera.status
         <$> (BackendHome.cameras
                (BackendHome.performBackendScan (ScanResult scanWithoutCam3) connectedState)
              !! 0%nat) = Some fire.
Proof.
  eexists. split; [reflexivity|]. split; [reflexivity|]. split; [|reflexivity].
  apply C7_absent_camera_unchanged; [reflexivity|].
  intros result_cameras c Heq Hin. injection Heq as <-.
  unfold scanWithoutCam3 in Hin.
  repeat (apply elem_of_cons in Hin as [->|Hin]; [cbn; discriminate|]).
  inversion Hin.
Defined.

(** ** The claims about the ledger over time *)

Lemma created_cameraIds E t alerts snapshot : forall i,
  map FireAlert.cameraId (created E t alerts i snapshot) =
  map SimulatedCamera.id (List.filter (triggers t alerts) snapshot).
Proof.
  induction snapshot as [|camera rest IH]; intros i; [reflexivity|].
  cbn [created List.filter]. rewrite map_app, IH.
  destruct (triggers t alerts camera); reflexivity.
Qed.

(** C6. The fire-window effect, in both pages: the ledger after it is
    the ledger before it with the new alerts in front; the new alerts
    are active and, read from the head, belong to the cameras that
    passed the test in the reverse of the order in which the loop met
    them, so the alert made last is first.  In the backend page the
    effect creates nothing when it does not simulate. *)
Theorem C6_new_alerts_at_head (E : Ambient) :
  (forall st : Home.State,
      exists news,
        Home.alerts (Home.fireWindowEffect E st) = news ++ Home.alerts st
        /\ map FireAlert.cameraId news
           = rev (map SimulatedCamera.id
                      (List.filter (triggers (Home.simulationTime st) (Home.alerts st))
                                   (Home.cameras st)))
        /\ (forall a, a ∈ news -> FireAlert.status a = active))
  /\ (forall st : BackendHome.State,
      exists news,
        BackendHome.alerts (BackendHome.fireWindowEffect E st)
        = news ++ BackendHome.alerts st
        /\ map FireAlert.cameraId news
           = (if BackendHome.simulated st
              then rev (map SimulatedCamera.id
                            (List.filter (triggers (BackendHome.simulationTime st)
                                                   (BackendHome.alerts st))
                                         (BackendHome.cameras st)))
              else [])
        /\ (forall a, a ∈ news -> FireAlert.status a = active)).
Proof.
  split; intros st.
  - exists (rev (created E (Home.simulationTime st) (Home.alerts st) 0 (Home.cameras st))).
    cbn [Home.fireWindowEffect Home.alerts]. rewrite fireWindowPass_alerts.
    split; [reflexivity|]. split.
    + rewrite map_rev, created_cameraIds. reflexivity.
    + intros a Ha. apply list_elem_of_In, in_rev, list_elem_of_In in Ha.
      apply created_elem in Ha. tauto.
  - unfold BackendHome.fireWindowEffect, BackendHome.simulated.
    destruct (negb (BackendHome.backendConnected st) || negb (BackendHome.useBackend st)).
    + exists (rev (created E (BackendHome.simulationTime st) (BackendHome.alerts st) 0
                           (BackendHome.cameras st))).
      cbn [BackendHome.alerts]. rewrite fireWindowPass_alerts.
      split; [reflexivity|]. split.
      * rewrite map_rev, created_cameraIds. reflexivity.
      * intros a Ha. apply list_elem_of_In, in_rev, list_elem_of_In in Ha.
        apply created_elem in Ha. tauto.
    + exists []. split; [reflexivity|]. split; [reflexivity|].
      intros a Ha. inversion Ha.
Qed.

(** A and B, scheduled at 15000, at the tick that takes the simulation
    to 14000: the loop meets A, then B, and the ledger reads B, A. *)
Lemma C6_witness :
  exists news,
    Home.alerts (Home.fireWindowEffect exampleAmbient
                   (Home.tick (Home.run (ticks 13) sameTickState))) = news ++ []
    /\ map FireAlert.cameraId news = ["B"; "A"].
Proof.
  destruct (proj1 (C6_new_alerts_at_head exampleAmbient)
                  (Home.tick (Home.run (ticks 13) sameTickState)))
    as [news [H1 [H2 _]]].
  exists news. split; [exact H1 | exact H2].
Defined.

(** Alerts made in different ticks: cam-1 at 14000, cam-4 at 19000. *)
Example alerts_cam1_then_cam4 :
  map FireAlert.cameraId (Home.alerts (Home.run (ticks 19) (Home.mount Home.initialState)))
  = ["cam-4"; "cam-1"].
Proof. vm_compute. reflexivity. Qed.

(** Alerts made in one tick: the loop meets A, then B. *)
Example alerts_A_then_B_same_tick :
  map FireAlert.cameraId (Home.alerts (Home.run (ticks 14) sameTickState)) = ["B"; "A"].
Proof. vm_compute. reflexivity. Qed.

(** *** At most one active alert per camera *)

Lemma AtMostOneActive_le (l l' : list FireAlert.t) :
  (forall cid, (activeCount cid l' <= activeCount cid l)%nat) ->
  AtMostOneActive l -> AtMostOneActive l'.
Proof. intros Hle H cid. specialize (Hle cid). specialize (H cid). lia. Qed.

Lemma Home_handle_ids c st :
  map SimulatedCamera.id (Home.cameras (Home.handle c st)) =
  map SimulatedCamera.id (Home.cameras st).
Proof. destruct c; cbn; try reflexivity; apply resetFireCameras_ids. Qed.

Lemma Home_handle_activeCount c st cid :
  (activeCount cid (Home.alerts (Home.handle c st)) <= activeCount cid (Home.alerts st))%nat.
Proof.
  destruct c; cbn [Home.handle Home.tick Home.setSelectedAlert Home.handleResolveAlert
                   Home.handleRequestResponse Home.alerts];
    try reflexivity; apply resolveById_activeCount.
Qed.

Lemma Home_run_AtMostOneActive trace : forall st : Home.State,
  NoDup (map SimulatedCamera.id (Home.cameras st)) ->
  AtMostOneActive (Home.alerts st) ->
  NoDup (map SimulatedCamera.id (Home.cameras (Home.run trace st)))
  /\ AtMostOneActive (Home.alerts (Home.run trace st)).
Proof.
  induction trace as [|x trace IH]; intros st Hnd Hone; [split; assumption|].
  cbn [Home.run fold_left]. apply IH.
  - unfold Home.step. cbn [Home.fireWindowEffect Home.cameras].
    rewrite fireWindowPass_ids, Home_handle_ids. exact Hnd.
  - unfold Home.step. cbn [Home.fireWindowEffect Home.alerts].
    apply fireWindowPass_AtMostOneActive.
    + rewrite Home_handle_ids. exact Hnd.
    + eapply AtMostOneActive_le; [|exact Hone]. apply Home_handle_activeCount.
Qed.

Lemma handleVideoViewerOpen_frame alert outcome st :
  BackendHome.cameras (BackendHome.handleVideoViewerOpen alert outcome st)
  = BackendHome.cameras st
  /\ BackendHome.alerts (BackendHome.handleVideoViewerOpen alert outcome st)
     = BackendHome.alerts st
  /\ BackendHome.backendConnected (BackendHome.handleVideoViewerOpen alert outcome st)
     = BackendHome.backendConnected st
  /\ BackendHome.useBackend (BackendHome.handleVideoViewerOpen alert outcome st)
     = BackendHome.useBackend st.
Proof.
  unfold BackendHome.handleVideoViewerOpen.
  destruct alert as [alert|]; [|auto].
  destruct (BackendHome.backendConnected st && BackendHome.useBackend st); [|auto].
  destruct (find _ _); [|auto]. destruct outcome; auto.
Qed.

Lemma performBackendScan_alerts outcome st :
  BackendHome.alerts (BackendHome.performBackendScan outcome st) = BackendHome.alerts st.
Proof.
  unfold BackendHome.performBackendScan.
  destruct (negb (BackendHome.backendConnected st)); [reflexivity|].
  destruct outcome; reflexivity.
Qed.

Lemma performBackendScan_ids outcome st :
  map SimulatedCamera.id (BackendHome.cameras (BackendHome.performBackendScan outcome st))
  = map SimulatedCamera.id (BackendHome.cameras st).
Proof.
  unfold BackendHome.performBackendScan.
  destruct (negb (BackendHome.backendConnected st)); [reflexivity|].
  destruct outcome; try reflexivity. apply applyScanResult_ids.
Qed.

Lemma BackendHome_handle_ids c st :
  map SimulatedCamera.id (BackendHome.cameras (BackendHome.handle c st)) =
  map SimulatedCamera.id (BackendHome.cameras st).
Proof.
  destruct c; cbn [BackendHome.handle]; try reflexivity.
  - apply performBackendScan_ids.
  - rewrite (proj1 (handleVideoViewerOpen_frame _ _ _)). reflexivity.
  - apply resetFireCameras_ids.
  - apply resetFireCameras_ids.
Qed.

Lemma BackendHome_handle_activeCount c st cid :
  (activeCount cid (BackendHome.alerts (BackendHome.handle c st))
   <= activeCount cid (BackendHome.alerts st))%nat.
Proof.
  destruct c; cbn [BackendHome.handle]; try reflexivity.
  - rewrite performBackendScan_alerts. reflexivity.
  - rewrite (proj1 (proj2 (handleVideoViewerOpen_frame _ _ _))). reflexivity.
  - apply resolveById_activeCount.
  - apply resolveById_activeCount.
Qed.

Lemma BackendHome_run_AtMostOneActive trace : forall st : BackendHome.State,
  NoDup (map SimulatedCamera.id (BackendHome.cameras st)) ->
  AtMostOneActive (BackendHome.alerts st) ->
  NoDup (map SimulatedCamera.id (BackendHome.cameras (BackendHome.run trace st)))
  /\ AtMostOneActive (BackendHome.alerts (BackendHome.run trace st)).
Proof.
  induction trace as [|x trace IH]; intros st Hnd Hone; [split; assumption|].
  cbn [BackendHome.run fold_left].
  pose proof (BackendHome_handle_ids (snd x) st) as Hids.
  assert (Hone' : AtMostOneActive (BackendHome.alerts (BackendHome.handle (snd x) st))).
  { eapply AtMostOneActive_le; [|exact Hone]. apply BackendHome_handle_activeCount. }
  apply IH; unfold BackendHome.step, BackendHome.fireWindowEffect;
    destruct (negb (BackendHome.backendConnected (BackendHome.handle (snd x) st))
              || negb (BackendHome.useBackend (BackendHome.handle (snd x) st)));
    cbn [BackendHome.cameras BackendHome.alerts].
  - rewrite fireWindowPass_ids, Hids. exact Hnd.
  - rewrite Hids. exact Hnd.
  - apply fireWindowPass_AtMostOneActive; [rewrite Hids; exact Hnd | exact Hone'].
  - exact Hone'.
Qed.

Ltac solve_NoDup_ids :=
  cbn; repeat (apply NoDup_cons_2;
               [rewrite ?elem_of_cons, elem_of_nil; intuition discriminate|]);
  apply NoDup_nil_2.

Lemma AtMostOneActive_nil : AtMostOneActive [].
Proof. intros cid. cbn. lia. Qed.

(** C4. In both pages, from any state whose cameras have pairwise
    different ids and whose ledger has at most one active alert per
    camera id, every sequence of commands (ticks, creations by the
    fire-window effect, resolutions, and for the backend page probes
    and scans) leads to a ledger with at most one active alert per
    camera id: the effect creates an alert for a camera only when the
    ledger it sees has no active alert of that camera. *)
Theorem C4_at_most_one_active_alert_per_camera :
  (forall (st : Home.State) (trace : list (Ambient * Home.Command)),
      NoDup (map SimulatedCamera.id (Home.cameras st)) ->
      AtMostOneActive (Home.alerts st) ->
      AtMostOneActive (Home.alerts (Home.run trace st)))
  /\ (forall (st : BackendHome.State) (trace : list (Ambient * BackendHome.Command)),
      NoDup (map SimulatedCamera.id (BackendHome.cameras st)) ->
      AtMostOneActive (BackendHome.alerts st) ->
      AtMostOneActive (BackendHome.alerts (BackendHome.run trace st))).
Proof.
  split; intros st trace Hnd Hone.
  - apply Home_run_AtMostOneActive; assumption.
  - apply BackendHome_run_AtMostOneActive; assumption.
Qed.

(** The camera with offsets 15000 and 15800 over seventeen ticks, and
    the registry of the backend page over nineteen ticks and one
    resolution. *)
Lemma C4_witness :
  AtMostOneActive (Home.alerts (Home.run (ticks 17) twoOffsetState))
  /\ AtMostOneActive
       (BackendHome.alerts
          (BackendHome.run twoFiresThenResolve (BackendHome.mount BackendHome.initialState))).
Proof.
  split.
  - apply (proj1 C4_at_most_one_active_alert_per_camera).
    + solve_NoDup_ids.
    + apply AtMostOneActive_nil.
  - apply (proj2 C4_at_most_one_active_alert_per_camera).
    + solve_NoDup_ids.
    + apply AtMostOneActive_nil.
Defined.

(** The two offsets 15000 and 15800 of one camera: the first tick that
    comes within 1500 ms (14000) creates the alert, and the ticks at
    15000, 16000 and 17000, all within 1500 ms of an offset, create no
    second one. *)
Example two_offsets_one_alert :
  map (fun n => length (Home.alerts (Home.run (ticks n) twoOffsetState)))
      [13; 14; 15; 16; 17; 18]%nat
  = [0; 1; 1; 1; 1; 1]%nat
  /\ map (fun n => length (BackendHome.alerts
                             (BackendHome.run (backendTicks n) twoOffsetBackendState)))
         [13; 14; 15; 16; 17; 18]%nat
     = [0; 1; 1; 1; 1; 1]%nat.
Proof. split; vm_compute; reflexivity. Qed.

(** *** Camera status against the ledger *)









(** *** The evaluation mode of the backend page *)

Lemma BackendHome_handle_useBackend c st :
  BackendHome.useBackend st = false ->
  BackendHome.useBackend (BackendHome.handle c st) = false.
Proof.
  intros H. destruct c; cbn [BackendHome.handle]; try exact H.
  - unfold BackendHome.performBackendScan.
    destruct (negb (BackendHome.backendConnected st)); [reflexivity|].
    destruct outcome; try exact H; reflexivity.
  - rewrite (proj2 (proj2 (proj2 (handleVideoViewerOpen_frame _ _ _)))). exact H.
Qed.

Lemma BackendHome_effect_useBackend E st :
  BackendHome.useBackend (BackendHome.fireWindowEffect E st) = BackendHome.useBackend st.
Proof.
  unfold BackendHome.fireWindowEffect.
  destruct (negb (BackendHome.backendConnected st) || negb (BackendHome.useBackend st));
    reflexivity.
Qed.

Lemma BackendHome_run_useBackend trace : forall st,
  BackendHome.useBackend st = false ->
  BackendHome.useBackend (BackendHome.run trace st) = false.
Proof.
  induction trace as [|x trace IH]; intros st H; [exact H|].
  cbn [BackendHome.run fold_left]. apply IH. unfold BackendHome.step.
  rewrite BackendHome_effect_useBackend. apply BackendHome_handle_useBackend, H.
Qed.

(** C3, as the code has it.  A scan requested while the backend is not
    connected, and a scan whose call throws, clear [useBackend]; once
    [useBackend] is cleared it stays cleared over every sequence of
    commands, so the page simulates from then on whatever the later
    probes answer.  A probe that answers false makes the page simulate
    as long as [backendConnected] stays false. *)
Theorem C3_simulated_mode_latch :
  (forall (outcome : ScanOutcome) (st : BackendHome.State),
      BackendHome.backendConnected st = false \/ outcome = ScanThrows ->
      BackendHome.useBackend (BackendHome.performBackendScan outcome st) = false)
  /\ (forall (trace : list (Ambient * BackendHome.Command)) (st : BackendHome.State),
      BackendHome.useBackend st = false ->
      BackendHome.useBackend (BackendHome.run trace st) = false
      /\ BackendHome.simulated (BackendHome.run trace st) = true)
  /\ (forall st : BackendHome.State,
      BackendHome.simulated (BackendHome.checkBackend false st) = true).
Proof.
  split; [|split].
  - intros outcome st H. unfold BackendHome.performBackendScan.
    destruct (negb (BackendHome.backendConnected st)) eqn:Hc; [reflexivity|].
    destruct H as [H| ->]; [|reflexivity].
    rewrite H in Hc. discriminate.
  - intros trace st H. pose proof (BackendHome_run_useBackend trace st H) as Hu.
    split; [exact Hu|]. unfold BackendHome.simulated. rewrite Hu. apply orb_true_r.
  - intros st. reflexivity.
Qed.

(** A scan that throws on the connected page, followed by a probe that
    answers true and nineteen ticks: the page still simulates, and its
    ledger shows the two alerts of the simulation. *)
Lemma C3_witness :
  let st := BackendHome.performBackendScan ScanThrows connectedState in
  let trace := (exampleAmbient, BackendHome.HealthProbe true) :: backendTicks 19 in
  BackendHome.useBackend st = false
  /\ BackendHome.simulated (BackendHome.run trace st) = true
  /\ length (BackendHome.alerts (BackendHome.run trace st)) = 2%nat.
Proof.
  intros st trace.
  assert (H : BackendHome.useBackend st = false).
  { apply (proj1 C3_simulated_mode_latch). right. reflexivity. }
  split; [exact H|]. split; [|reflexivity].
  apply (proj1 (proj2 C3_simulated_mode_latch)). exact H.
Defined.

(** C3 as stated fails: a probe that answers false makes the page
    simulate, and the next probe that answers true takes it back: the
    guard of the effect is false again and nineteen ticks later no
    scheduled fire window has created an alert. *)
Lemma C3_counterexample :
  BackendHome.simulated
    (BackendHome.run [(exampleAmbient, BackendHome.HealthProbe false)]
                     (BackendHome.mount BackendHome.initialState)) = true
  /\ BackendHome.simulated
       (BackendHome.run probeFalseThenTrue (BackendHome.mount BackendHome.initialState))
     = false
  /\ BackendHome.alerts
       (BackendHome.run (probeFalseThenTrue ++ backendTicks 19)
                        (BackendHome.mount BackendHome.initialState)) = []
  /\ length (BackendHome.alerts
               (BackendHome.run (backendTicks 19)
                                (BackendHome.mount BackendHome.initialState))) = 2%nat.
Proof. repeat split; vm_compute; reflexivity. Qed.

(** * Further results on the same code *)

(** ** The ledger keeps its history *)

Lemma laterOf_refl a : laterOf a a.
Proof. left. reflexivity. Qed.

Lemma laterOf_trans a b c : laterOf a b -> laterOf b c -> laterOf a c.
Proof.
  intros [->| ->] [->| ->]; try (left; reflexivity); right; reflexivity.
Qed.

Lemma Forall2_laterOf_refl l : Forall2 laterOf l l.
Proof. induction l; constructor; auto using laterOf_refl. Qed.

Lemma Forall2_laterOf_trans l1 : forall l2 l3,
  Forall2 laterOf l1 l2 -> Forall2 laterOf l2 l3 -> Forall2 laterOf l1 l3.
Proof.
  induction l1 as [|a l1 IH]; intros l2 l3 H12 H23.
  - apply Forall2_nil_inv_l in H12. subst. exact H23.
  - apply Forall2_cons_inv_l in H12 as [b [l2' [Hab [H12 ->]]]].
    apply Forall2_cons_inv_l in H23 as [c [l3' [Hbc [H23 ->]]]].
    constructor; [eapply laterOf_trans; eauto | eapply IH; eauto].
Qed.

Lemma resolveById_laterOf alertId prev : Forall2 laterOf prev (resolveById alertId prev).
Proof.
  induction prev as [|a l IH]; cbn; constructor; [|exact IH].
  destruct (String.eqb (FireAlert.id a) alertId); [right|left]; reflexivity.
Qed.

Lemma LedgerExtends_refl l : LedgerExtends l l.
Proof. exists [], l. split; [reflexivity | apply Forall2_laterOf_refl]. Qed.

Lemma LedgerExtends_trans l1 l2 l3 :
  LedgerExtends l1 l2 -> LedgerExtends l2 l3 -> LedgerExtends l1 l3.
Proof.
  intros [n1 [o1 [-> H1]]] [n2 [o2 [-> H2]]].
  apply Forall2_app_inv_l in H2 as [k1 [k2 [Hk1 [Hk2 ->]]]].
  exists (n2 ++ k1), k2. split; [apply app_assoc|].
  eapply Forall2_laterOf_trans; eauto.
Qed.

Lemma LedgerExtends_resolveById alertId l : LedgerExtends l (resolveById alertId l).
Proof. exists [], (resolveById alertId l). split; [reflexivity | apply resolveById_laterOf]. Qed.

Lemma LedgerExtends_fireWindowPass E t cameras alerts :
  LedgerExtends alerts (snd (fireWindowPass E t cameras alerts)).
Proof.
  rewrite fireWindowPass_alerts. eexists _, alerts.
  split; [reflexivity | apply Forall2_laterOf_refl].
Qed.

Lemma Home_handle_LedgerExtends c st :
  LedgerExtends (Home.alerts st) (Home.alerts (Home.handle c st)).
Proof.
  destruct c; cbn [Home.handle Home.tick Home.setSelectedAlert Home.handleResolveAlert
                   Home.handleRequestResponse Home.alerts];
    try apply LedgerExtends_refl; apply LedgerExtends_resolveById.
Qed.

Lemma BackendHome_handle_LedgerExtends c st :
  LedgerExtends (BackendHome.alerts st) (BackendHome.alerts (BackendHome.handle c st)).
Proof.
  destruct c; cbn [BackendHome.handle]; try apply LedgerExtends_refl.
  - rewrite performBackendScan_alerts. apply LedgerExtends_refl.
  - rewrite (proj1 (proj2 (handleVideoViewerOpen_frame _ _ _))). apply LedgerExtends_refl.
  - apply LedgerExtends_resolveById.
  - apply LedgerExtends_resolveById.
Qed.

Lemma Home_step_LedgerExtends st x :
  LedgerExtends (Home.alerts st) (Home.alerts (Home.step st x)).
Proof.
  eapply LedgerExtends_trans; [apply (Home_handle_LedgerExtends (snd x))|].
  unfold Home.step. cbn [Home.fireWindowEffect Home.alerts].
  apply LedgerExtends_fireWindowPass.
Qed.

Lemma BackendHome_step_LedgerExtends st x :
  LedgerExtends (BackendHome.alerts st) (BackendHome.alerts (BackendHome.step st x)).
Proof.
  eapply LedgerExtends_trans; [apply (BackendHome_handle_LedgerExtends (snd x))|].
  unfold BackendHome.step, BackendHome.fireWindowEffect.
  destruct (negb _ || negb _); [|apply LedgerExtends_refl].
  cbn [BackendHome.alerts]. apply LedgerExtends_fireWindowPass.
Qed.

Lemma Home_run_LedgerExtends trace : forall st,
  LedgerExtends (Home.alerts st) (Home.alerts (Home.run trace st)).
Proof.
  induction trace as [|x trace IH]; intros st; [apply LedgerExtends_refl|].
  cbn [Home.run fold_left].
  exact (LedgerExtends_trans _ _ _ (Home_step_LedgerExtends st x) (IH _)).
Qed.

Lemma BackendHome_run_LedgerExtends trace : forall st,
  LedgerExtends (BackendHome.alerts st) (BackendHome.alerts (BackendHome.run trace st)).
Proof.
  induction trace as [|x trace IH]; intros st; [apply LedgerExtends_refl|].
  cbn [BackendHome.run fold_left].
  exact (LedgerExtends_trans _ _ _ (BackendHome_step_LedgerExtends st x) (IH _)).
Qed.

(** X1. Over every sequence of commands, in both pages, the ledger
    only grows at its head: the alerts it had are still there, at the
    tail and in the same order, each one either as it was or with its
    status set to resolved.  No alert is dropped, reordered or changed
    in another field. *)
Theorem X1_ledger_keeps_history :
  (forall (trace : list (Ambient * Home.Command)) (st : Home.State),
      exists news olds',
        Home.alerts (Home.run trace st) = news ++ olds'
        /\ Forall2 laterOf (Home.alerts st) olds')
  /\ (forall (trace : list (Ambient * BackendHome.Command)) (st : BackendHome.State),
      exists news olds',
        BackendHome.alerts (BackendHome.run trace st) = news ++ olds'
        /\ Forall2 laterOf (BackendHome.alerts st) olds').
Proof.
  split; intros trace st.
  - apply Home_run_LedgerExtends.
  - apply BackendHome_run_LedgerExtends.
Qed.

Lemma filter_status_partition (alerts : list FireAlert.t) :
  (Dashboard.activeAlerts alerts + Dashboard.resolvedAlerts alerts)%nat = length alerts.
Proof.
  unfold Dashboard.activeAlerts, Dashboard.resolvedAlerts.
  induction alerts as [|a l IH]; [reflexivity|]. cbn [List.filter length].
  destruct (FireAlert.status a); cbn; lia.
Qed.

Lemma resolvedAlerts_app l1 l2 :
  Dashboard.resolvedAlerts (l1 ++ l2)
  = (Dashboard.resolvedAlerts l1 + Dashboard.resolvedAlerts l2)%nat.
Proof.
  unfold Dashboard.resolvedAlerts. rewrite List.filter_app, length_app. reflexivity.
Qed.

Lemma resolvedAlerts_laterOf l : forall l',
  Forall2 laterOf l l' -> (Dashboard.resolvedAlerts l <= Dashboard.resolvedAlerts l')%nat.
Proof.
  unfold Dashboard.resolvedAlerts.
  induction l as [|a l IH]; intros l' H.
  - cbn. lia.
  - apply Forall2_cons_inv_l in H as [b [k [Hab [H ->]]]]. specialize (IH k H).
    cbn [List.filter]. destruct Hab as [->| ->].
    + destruct (AlertStatus_eqb (FireAlert.status a) resolved); cbn; lia.
    + cbn. destruct (AlertStatus_eqb (FireAlert.status a) resolved); cbn; lia.
Qed.

(** X2. The two counters of the dashboard: at every moment the active
    and the resolved alerts add up to the whole ledger, and over every
    sequence of commands of the backend page neither the number of
    resolved alerts nor the size of the ledger goes down. *)
Theorem X2_dashboard_counters (trace : list (Ambient * BackendHome.Command))
    (st : BackendHome.State) :
  (Dashboard.activeAlerts (BackendHome.alerts (BackendHome.run trace st))
   + Dashboard.resolvedAlerts (BackendHome.alerts (BackendHome.run trace st))
   = length (BackendHome.alerts (BackendHome.run trace st)))%nat
  /\ (Dashboard.resolvedAlerts (BackendHome.alerts st)
      <= Dashboard.resolvedAlerts (BackendHome.alerts (BackendHome.run trace st)))%nat
  /\ (length (BackendHome.alerts st)
      <= length (BackendHome.alerts (BackendHome.run trace st)))%nat.
Proof.
  split; [apply filter_status_partition|].
  destruct (BackendHome_run_LedgerExtends trace st) as [news [olds' [-> H]]].
  split.
  - rewrite resolvedAlerts_app. pose proof (resolvedAlerts_laterOf _ _ H). lia.
  - rewrite length_app, (Forall2_length _ _ _ H). lia.
Qed.

(** ** The registry keeps its cameras *)

Lemma markFire_fixed camera q prev :
  map fixedFields (markFire camera q prev) = map fixedFields prev.
Proof.
  unfold markFire. rewrite map_map. apply map_ext. intros c.
  destruct (String.eqb _ _); reflexivity.
Qed.

Lemma forEachCamera_fixed E t alerts snapshot : forall i st,
  map fixedFields (fst (forEachCamera E t alerts i snapshot st)) = map fixedFields (fst st).
Proof.
  induction snapshot as [|camera rest IH]; intros i st; [reflexivity|].
  cbn [forEachCamera]. rewrite IH, fireWindowBody_triggers.
  destruct (triggers t alerts camera); [|reflexivity].
  apply markFire_fixed.
Qed.

Lemma resetFireCameras_fixed prev :
  map fixedFields (resetFireCameras prev) = map fixedFields prev.
Proof.
  unfold resetFireCameras. rewrite map_map. apply map_ext. intros c.
  destruct (CameraStatus_eqb _ _); reflexivity.
Qed.

Lemma applyScanResult_fixed result_cameras prev :
  map fixedFields (BackendHome.applyScanResult result_cameras prev) = map fixedFields prev.
Proof.
  unfold BackendHome.applyScanResult. rewrite map_map. apply map_ext. intros c.
  destruct (find _ _); reflexivity.
Qed.

Lemma BackendHome_handle_fixed c st :
  map fixedFields (BackendHome.cameras (BackendHome.handle c st))
  = map fixedFields (BackendHome.cameras st).
Proof.
  destruct c; cbn [BackendHome.handle]; try reflexivity.
  - unfold BackendHome.performBackendScan.
    destruct (negb (BackendHome.backendConnected st)); [reflexivity|].
    destruct outcome; try reflexivity. apply applyScanResult_fixed.
  - rewrite (proj1 (handleVideoViewerOpen_frame _ _ _)). reflexivity.
  - apply resetFireCameras_fixed.
  - apply resetFireCameras_fixed.
Qed.

Lemma BackendHome_effect_fixed E st :
  map fixedFields (BackendHome.cameras (BackendHome.fireWindowEffect E st))
  = map fixedFields (BackendHome.cameras st).
Proof.
  unfold BackendHome.fireWindowEffect.
  destruct (negb _ || negb _); [|reflexivity].
  cbn [BackendHome.cameras]. apply forEachCamera_fixed.
Qed.

(** X3. Over every sequence of commands of the backend page (ticks,
    probes, scans, selections, resolutions), the registry keeps the
    same cameras in the same order: id, name, location, coordinates,
    image and scheduled fire times of each position never change, and
    so the number of cameras stays what it was. *)
Theorem X3_registry_is_fixed (trace : list (Ambient * BackendHome.Command)) :
  forall st : BackendHome.State,
    map fixedFields (BackendHome.cameras (BackendHome.run trace st))
    = map fixedFields (BackendHome.cameras st)
    /\ length (BackendHome.cameras (BackendHome.run trace st))
       = length (BackendHome.cameras st).
Proof.
  assert (H : forall st, map fixedFields (BackendHome.cameras (BackendHome.run trace st))
                         = map fixedFields (BackendHome.cameras st)).
  { induction trace as [|x trace IH]; intros st; [reflexivity|].
    cbn [BackendHome.run fold_left]. change (fold_left BackendHome.step trace)
      with (BackendHome.run trace). rewrite IH. unfold BackendHome.step.
    rewrite BackendHome_effect_fixed. apply BackendHome_handle_fixed. }
  intros st. split; [apply H|].
  rewrite <- (length_map fixedFields), H. apply length_map.
Qed.

(** ** The two counters *)

Lemma handleVideoViewerOpen_counters alert outcome st :
  BackendHome.simulationTime (BackendHome.handleVideoViewerOpen alert outcome st)
  = BackendHome.simulationTime st
  /\ BackendHome.responsesSent (BackendHome.handleVideoViewerOpen alert outcome st)
     = BackendHome.responsesSent st.
Proof.
  unfold BackendHome.handleVideoViewerOpen.
  destruct alert as [alert|]; [|auto].
  destruct (BackendHome.backendConnected st && BackendHome.useBackend st); [|auto].
  destruct (find _ _); [|auto]. destruct outcome; auto.
Qed.

Lemma performBackendScan_counters outcome st :
  BackendHome.simulationTime (BackendHome.performBackendScan outcome st)
  = BackendHome.simulationTime st
  /\ BackendHome.responsesSent (BackendHome.performBackendScan outcome st)
     = BackendHome.responsesSent st.
Proof.
  unfold BackendHome.performBackendScan.
  destruct (negb (BackendHome.backendConnected st)); [auto|].
  destruct outcome; auto.
Qed.

Lemma BackendHome_step_counters st x :
  BackendHome.simulationTime (BackendHome.step st x)
  = BackendHome.simulationTime st + 1000 * backendHomeTicks [x]
  /\ BackendHome.responsesSent (BackendHome.step st x)
     = BackendHome.responsesSent st + backendHomeResponses [x].
Proof.
  unfold BackendHome.step, BackendHome.fireWindowEffect.
  set (st1 := BackendHome.handle (snd x) st).
  assert (H : BackendHome.simulationTime st1
              = BackendHome.simulationTime st + 1000 * backendHomeTicks [x]
              /\ BackendHome.responsesSent st1
                 = BackendHome.responsesSent st + backendHomeResponses [x]).
  { subst st1. unfold backendHomeTicks, backendHomeResponses. cbn [List.filter].
    destruct (snd x); cbn; try (split; lia).
    - destruct (performBackendScan_counters outcome st) as [-> ->]. split; lia.
    - destruct (handleVideoViewerOpen_counters alert outcome st) as [-> ->]. split; lia. }
  destruct (negb _ || negb _); exact H.
Qed.

Lemma backendHomeTicks_cons x trace :
  backendHomeTicks (x :: trace) = backendHomeTicks [x] + backendHomeTicks trace.
Proof.
  unfold backendHomeTicks. cbn [List.filter].
  destruct (match snd x with BackendHome.Tick => true | _ => false end); cbn [length]; lia.
Qed.

Lemma backendHomeResponses_cons x trace :
  backendHomeResponses (x :: trace) = backendHomeResponses [x] + backendHomeResponses trace.
Proof.
  unfold backendHomeResponses. cbn [List.filter].
  destruct (match snd x with BackendHome.RequestResponse _ => true | _ => false end);
    cbn [length]; lia.
Qed.

(** X4. Over every sequence of commands of the backend page, the
    simulation time is its starting value plus 1000 for each tick of
    the sequence, and the counter of responses is its starting value
    plus one for each response request: nothing else moves them, and
    neither ever goes down. *)
Theorem X4_clock_and_response_counter (trace : list (Ambient * BackendHome.Command)) :
  forall st : BackendHome.State,
    BackendHome.simulationTime (BackendHome.run trace st)
    = BackendHome.simulationTime st + 1000 * backendHomeTicks trace
    /\ BackendHome.responsesSent (BackendHome.run trace st)
       = BackendHome.responsesSent st + backendHomeResponses trace
    /\ BackendHome.simulationTime st <= BackendHome.simulationTime (BackendHome.run trace st)
    /\ BackendHome.responsesSent st <= BackendHome.responsesSent (BackendHome.run trace st).
Proof.
  assert (H : forall st,
             BackendHome.simulationTime (BackendHome.run trace st)
             = BackendHome.simulationTime st + 1000 * backendHomeTicks trace
             /\ BackendHome.responsesSent (BackendHome.run trace st)
                = BackendHome.responsesSent st + backendHomeResponses trace).
  { induction trace as [|x trace IH]; intros st.
    - unfold backendHomeTicks, backendHomeResponses. cbn. split; lia.
    - cbn [BackendHome.run fold_left].
      change (fold_left BackendHome.step trace) with (BackendHome.run trace).
      destruct (IH (BackendHome.step st x)) as [-> ->].
      destruct (BackendHome_step_counters st x) as [-> ->].
      rewrite (backendHomeTicks_cons x trace), (backendHomeResponses_cons x trace).
      split; lia. }
  intros st. destruct (H st) as [H1 H2]. split; [exact H1|]. split; [exact H2|].
  rewrite H1, H2. unfold backendHomeTicks, backendHomeResponses. split; lia.
Qed.

(** ** Every alert names a camera of the registry *)

Lemma find_camera_by_id (cameras : list SimulatedCamera.t) (cid : string) :
  cid ∈ map SimulatedCamera.id cameras ->
  exists c, find (fun c => String.eqb (SimulatedCamera.id c) cid) cameras = Some c
            /\ SimulatedCamera.id c = cid /\ c ∈ cameras.
Proof.
  induction cameras as [|c l IH]; intros Hin; [inversion Hin|].
  cbn [find]. destruct (String.eqb (SimulatedCamera.id c) cid) eqn:Hc.
  - exists c. apply String.eqb_eq in Hc. split; [reflexivity|]. split; [exact Hc | left].
  - cbn [map] in Hin. apply elem_of_cons in Hin as [Hin|Hin].
    + apply String.eqb_neq in Hc. congruence.
    + destruct (IH Hin) as [c' [H1 [H2 H3]]]. exists c'. split; [exact H1|].
      split; [exact H2 | right; exact H3].
Qed.

Lemma AlertsNameCameras_ext cameras cameras' alerts alerts' :
  map SimulatedCamera.id cameras' = map SimulatedCamera.id cameras ->
  (forall a', a' ∈ alerts' -> exists a, a ∈ alerts /\ FireAlert.cameraId a' = FireAlert.cameraId a) ->
  AlertsNameCameras cameras alerts -> AlertsNameCameras cameras' alerts'.
Proof.
  intros Hids Hal H a' Ha'. destruct (Hal a' Ha') as [a [Ha Hc]].
  rewrite Hids, Hc. apply H, Ha.
Qed.

Lemma resolveById_cameraId alertId prev a' :
  a' ∈ resolveById alertId prev ->
  exists a, a ∈ prev /\ FireAlert.cameraId a' = FireAlert.cameraId a.
Proof.
  intros H. apply elem_of_map in H as [a [-> Ha]]. exists a. split; [exact Ha|].
  destruct (String.eqb _ _); reflexivity.
Qed.

Lemma BackendHome_handle_AlertsNameCameras c st :
  AlertsNameCameras (BackendHome.cameras st) (BackendHome.alerts st) ->
  AlertsNameCameras (BackendHome.cameras (BackendHome.handle c st))
                    (BackendHome.alerts (BackendHome.handle c st)).
Proof.
  apply AlertsNameCameras_ext; [apply BackendHome_handle_ids|].
  intros a' Ha'. destruct c; cbn [BackendHome.handle] in Ha'; try (exists a'; split; [exact Ha' | reflexivity]).
  - rewrite performBackendScan_alerts in Ha'. exists a'. split; [exact Ha' | reflexivity].
  - rewrite (proj1 (proj2 (handleVideoViewerOpen_frame _ _ _))) in Ha'.
    exists a'. split; [exact Ha' | reflexivity].
  - apply resolveById_cameraId in Ha'. exact Ha'.
  - apply resolveById_cameraId in Ha'. exact Ha'.
Qed.

Lemma fireWindowPass_AlertsNameCameras E t cameras alerts :
  AlertsNameCameras cameras alerts ->
  AlertsNameCameras (fst (fireWindowPass E t cameras alerts))
                    (snd (fireWindowPass E t cameras alerts)).
Proof.
  intros H a Ha. rewrite fireWindowPass_ids.
  rewrite fireWindowPass_alerts in Ha. apply elem_of_app in Ha as [Ha|Ha]; [|apply H, Ha].
  apply list_elem_of_In, in_rev, list_elem_of_In in Ha.
  apply created_elem in Ha as [_ [camera [Hc [_ Hid]]]].
  rewrite <- Hid. apply elem_of_map. exists camera. split; [reflexivity | exact Hc].
Qed.

Lemma BackendHome_run_AlertsNameCameras trace : forall st,
  AlertsNameCameras (BackendHome.cameras st) (BackendHome.alerts st) ->
  AlertsNameCameras (BackendHome.cameras (BackendHome.run trace st))
                    (BackendHome.alerts (BackendHome.run trace st)).
Proof.
  induction trace as [|x trace IH]; intros st H; [exact H|].
  cbn [BackendHome.run fold_left]. apply IH.
  unfold BackendHome.step, BackendHome.fireWindowEffect.
  pose proof (BackendHome_handle_AlertsNameCameras (snd x) st H) as H1.
  destruct (negb _ || negb _); [|exact H1].
  cbn [BackendHome.cameras BackendHome.alerts].
  apply fireWindowPass_AlertsNameCameras, H1.
Qed.

(** X5. In the backend page, when every alert of the ledger names a
    camera of the registry, this stays so over every sequence of
    commands, and then [getSelectedCamera] finds a camera for every
    alert of the ledger that gets selected: the camera is in the
    registry and its id is the [cameraId] of the alert. *)
Theorem X5_selected_alert_has_camera (trace : list (Ambient * BackendHome.Command))
    (st : BackendHome.State) (a : FireAlert.t) :
  AlertsNameCameras (BackendHome.cameras st) (BackendHome.alerts st) ->
  a ∈ BackendHome.alerts (BackendHome.run trace st) ->
  exists c,
    BackendHome.getSelectedCamera
      (BackendHome.setSelectedAlert (Some a) (BackendHome.run trace st)) = Some c
    /\ c ∈ BackendHome.cameras (BackendHome.run trace st)
    /\ SimulatedCamera.id c = FireAlert.cameraId a.
Proof.
  intros H Ha.
  pose proof (BackendHome_run_AlertsNameCameras trace st H a Ha) as Hin.
  destruct (find_camera_by_id _ _ Hin) as [c [H1 [H2 H3]]].
  exists c. split; [exact H1|]. split; [exact H3 | exact H2].
Qed.

(** The alert of cam-4 after nineteen ticks and the resolution of the
    alert of cam-1. *)
Lemma X5_witness :
  exists a c,
    BackendHome.alerts
      (BackendHome.run twoFiresThenResolve (BackendHome.mount BackendHome.initialState))
    !! 0%nat = Some a
    /\ BackendHome.getSelectedCamera
         (BackendHome.setSelectedAlert (Some a)
            (BackendHome.run twoFiresThenResolve
                             (BackendHome.mount BackendHome.initialState))) = Some c
    /\ SimulatedCamera.id c = "cam-4".
Proof.
  eexists.
  destruct (X5_selected_alert_has_camera twoFiresThenResolve
              (BackendHome.mount BackendHome.initialState)
              (FireAlert.mk "1700000000000cam-4" "Park Avenue" "Binan City" 1700000000000
                            (180 # 200)%Q (407614 # 10000, - (739776 # 10000))%Q
                            "cam-4" active))
    as [c [H1 [_ H3]]].
  - intros a Ha. inversion Ha.
  - vm_compute. left.
  - exists c. split; [vm_compute; reflexivity|]. split; [exact H1 | exact H3].
Defined.

(** ** Clicking a marker *)

Lemma find_first {A} (f : A -> bool) (l : list A) (a : A) :
  find f l = Some a ->
  f a = true /\ exists l1 l2, l = l1 ++ a :: l2 /\ forall b, b ∈ l1 -> f b = false.
Proof.
  induction l as [|x l IH]; cbn [find]; [discriminate|].
  destruct (f x) eqn:Hx.
  - intros [= ->]. split; [exact Hx|]. exists [], l. split; [reflexivity|].
    intros b Hb. inversion Hb.
  - intros H. destruct (IH H) as [Ha [l1 [l2 [-> Hl1]]]]. split; [exact Ha|].
    exists (x :: l1), l2. split; [reflexivity|].
    intros b Hb. apply elem_of_cons in Hb as [->|Hb]; [exact Hx | apply Hl1, Hb].
Qed.

Lemma find_none_existsb {A} (f : A -> bool) (l : list A) :
  find f l = None <-> existsb f l = false.
Proof.
  induction l as [|x l IH]; cbn; [tauto|].
  destruct (f x); cbn; [split; discriminate | exact IH].
Qed.

(** X6. A click on a marker of the map, in the simulation-only page
    where the callback is [setSelectedAlert]: when the marker is drawn
    as active, the click selects an active alert of that camera, namely
    the one nearest to the head of the ledger (the most recent one);
    when the marker is not drawn as active the click changes nothing.
    The ledger and the registry are untouched in both cases. *)
Theorem X6_marker_click_selects_latest_active
    (st : Home.State) (marker : MapVisualization.MarkerPosition) :
  let st' := MapVisualization.handleMarkerClick (Home.alerts st)
               (fun alert => Home.setSelectedAlert (Some alert))
               (MapVisualization.cameraId marker) st in
  Home.alerts st' = Home.alerts st
  /\ Home.cameras st' = Home.cameras st
  /\ (MapVisualization.drawnActive (Home.alerts st) marker = false -> st' = st)
  /\ (MapVisualization.drawnActive (Home.alerts st) marker = true ->
      exists alert before after,
        Home.selectedAlert st' = Some alert
        /\ FireAlert.cameraId alert = MapVisualization.cameraId marker
        /\ FireAlert.status alert = active
        /\ Home.alerts st = before ++ alert :: after
        /\ forall b, b ∈ before ->
             ~ (FireAlert.cameraId b = MapVisualization.cameraId marker
                /\ FireAlert.status b = active)).
Proof.
  cbv zeta. unfold MapVisualization.handleMarkerClick, MapVisualization.drawnActive.
  destruct (find _ (Home.alerts st)) as [alert|] eqn:Hf.
  - split; [reflexivity|]. split; [reflexivity|]. split.
    + intros He. apply find_none_existsb in He. congruence.
    + intros _. apply find_first in Hf as [Ha [l1 [l2 [Hl Hl1]]]].
      apply activeFor_true in Ha as [Hc Hs].
      exists alert, l1, l2. split; [reflexivity|]. split; [exact Hc|]. split; [exact Hs|].
      split; [exact Hl|]. intros b Hb Hact. apply activeFor_true in Hact.
      specialize (Hl1 b Hb). unfold activeFor in Hact. congruence.
  - split; [reflexivity|]. split; [reflexivity|]. split; [reflexivity|].
    intros He. apply find_none_existsb in Hf. congruence.
Qed.

(** The markers of cam-4 (active alert) and cam-2 (no alert) in the
    state with two fires. *)
Lemma X6_witness :
  (exists alert,
     Home.selectedAlert
       (MapVisualization.handleMarkerClick (Home.alerts twoFiresState)
          (fun alert => Home.setSelectedAlert (Some alert)) "cam-4" twoFiresState)
     = Some alert
     /\ FireAlert.cameraId alert = "cam-4")
  /\ MapVisualization.handleMarkerClick (Home.alerts twoFiresState)
       (fun alert => Home.setSelectedAlert (Some alert)) "cam-2" twoFiresState
     = twoFiresState.
Proof.
  split.
  - destruct (proj2 (proj2 (proj2 (X6_marker_click_selects_latest_active twoFiresState
                (MapVisualization.mkMarker "cam-4" 50 50 true 0)))) eq_refl)
      as [alert [_ [_ [H1 [H2 _]]]]].
    exists alert. split; [exact H1 | exact H2].
  - apply (proj1 (proj2 (proj2 (X6_marker_click_selects_latest_active twoFiresState
                (MapVisualization.mkMarker "cam-2" 50 50 false 0))))).
    reflexivity.
Defined.

(** ** The marker table *)


(** ** The marker table *)

Lemma placeMarkers_keys random cameras : forall i positions k,
  is_Some (MapVisualization.placeMarkers random i cameras positions !! k)
  <-> k ∈ map SimulatedCamera.id cameras \/ is_Some (positions !! k).
Proof.
  induction cameras as [|camera rest IH]; intros i positions k.
  - cbn. split; [auto|]. intros [H|H]; [inversion H | exact H].
  - cbn [MapVisualization.placeMarkers map]. rewrite IH, lookup_insert_is_Some'.
    rewrite elem_of_cons. split.
    + intros [H|[H|H]]; auto.
    + intros [[H|H]|H]; auto.
Qed.

Lemma placeMarkers_entries random cameras : forall i positions k m,
  MapVisualization.placeMarkers random i cameras positions !! k = Some m ->
  positions !! k = Some m
  \/ (MapVisualization.cameraId m = k
      /\ MapVisualization.isActive m = false
      /\ MapVisualization.confidence m = 0%Q).
Proof.
  induction cameras as [|camera rest IH]; intros i positions k m H; [left; exact H|].
  cbn [MapVisualization.placeMarkers] in H. apply IH in H as [H|H]; [|right; exact H].
  apply lookup_insert_Some in H as [[<- <-]|[_ H]]; [right|left; exact H].
  repeat split.
Qed.

(** The marker of [camera] after the refresh of one iteration. *)
Lemma refreshMarker_lookup alerts camera
    (newPositions : gmap string MapVisualization.MarkerPosition) k :
  MapVisualization.refreshMarker alerts camera newPositions !! k =
  if decide (SimulatedCamera.id camera = k)
  then (fun marker =>
          MapVisualization.mkMarker
            (MapVisualization.cameraId marker) (MapVisualization.x marker)
            (MapVisualization.y marker)
            (CameraStatus_eqb (SimulatedCamera.status camera) fire)
            (SimulatedCamera.confidence camera)) <$> (newPositions !! k)
  else newPositions !! k.
Proof.
  unfold MapVisualization.refreshMarker.
  destruct (newPositions !! SimulatedCamera.id camera) as [marker|] eqn:Hm.
  - assert (Hins : forall v,
               <[SimulatedCamera.id camera := v]> newPositions !! k
               = if decide (SimulatedCamera.id camera = k) then Some v
                 else newPositions !! k).
    { intros v. apply lookup_insert. }
    destruct (find _ alerts); cbn [MapVisualization.isActive];
      [destruct (CameraStatus_eqb _ _)|]; rewrite ?insert_insert_eq, Hins;
      destruct (decide _) as [<-|]; try reflexivity; rewrite Hm; reflexivity.
  - destruct (decide _) as [<-|]; [rewrite Hm|]; reflexivity.
Qed.

Lemma refreshMarker_no_alerts alerts camera
    (newPositions : gmap string MapVisualization.MarkerPosition) :
  MapVisualization.refreshMarker alerts camera newPositions
  = MapVisualization.refreshMarker [] camera newPositions.
Proof.
  apply map_eq. intros k. rewrite !refreshMarker_lookup. reflexivity.
Qed.

Lemma refreshMarkers_no_alerts alerts cameras : forall markerPositions,
  MapVisualization.refreshMarkers alerts cameras markerPositions
  = MapVisualization.refreshMarkers [] cameras markerPositions.
Proof.
  unfold MapVisualization.refreshMarkers.
  induction cameras as [|camera rest IH]; intros mp; [reflexivity|].
  cbn [fold_left]. rewrite refreshMarker_no_alerts. apply IH.
Qed.

Lemma refreshMarkers_keeps_position alerts cameras : forall markerPositions k m,
  markerPositions !! k = Some m ->
  exists m',
    MapVisualization.refreshMarkers alerts cameras markerPositions !! k = Some m'
    /\ MapVisualization.cameraId m' = MapVisualization.cameraId m
    /\ MapVisualization.x m' = MapVisualization.x m
    /\ MapVisualization.y m' = MapVisualization.y m
    /\ (k ∉ map SimulatedCamera.id cameras -> m' = m).
Proof.
  unfold MapVisualization.refreshMarkers.
  induction cameras as [|camera rest IH]; intros mp k m Hm.
  - exists m. cbn. auto.
  - cbn [fold_left map].
    pose proof (refreshMarker_lookup alerts camera mp k) as Hl. rewrite Hm in Hl.
    destruct (decide (SimulatedCamera.id camera = k)) as [Heq|Hne].
    + destruct (IH _ _ _ Hl) as [m' [H1 [H2 [H3 [H4 _]]]]].
      exists m'. split; [exact H1|]. cbn in H2, H3, H4.
      split; [exact H2|]. split; [exact H3|]. split; [exact H4|].
      intros Hnot. exfalso. apply Hnot. rewrite Heq. left.
    + destruct (IH _ _ _ Hl) as [m' [H1 [H2 [H3 [H4 H5]]]]].
      exists m'. split; [exact H1|]. split; [exact H2|]. split; [exact H3|].
      split; [exact H4|]. intros Hnot. apply H5. intros Hin. apply Hnot. right. exact Hin.
Qed.

Lemma refreshMarkers_none alerts cameras : forall markerPositions k,
  markerPositions !! k = None ->
  MapVisualization.refreshMarkers alerts cameras markerPositions !! k = None.
Proof.
  unfold MapVisualization.refreshMarkers.
  induction cameras as [|camera rest IH]; intros mp k Hm; [exact Hm|].
  cbn [fold_left]. apply IH. rewrite refreshMarker_lookup, Hm.
  destruct (decide _); reflexivity.
Qed.

(** X8. The effect that refreshes the markers: it adds and removes no
    key and never moves a marker ([cameraId], [x] and [y] stay); a
    marker whose key is the id of no camera is unchanged; when the ids
    of the cameras are pairwise different, the marker stored under the
    id of a camera ends active exactly when that camera is in fire
    status, with the confidence of the camera.  The alerts passed to
    the effect have no influence on the table it produces. *)
Theorem X8_marker_refresh (alerts : list FireAlert.t) (cameras : list SimulatedCamera.t)
    (markerPositions : gmap string MapVisualization.MarkerPosition) :
  MapVisualization.refreshMarkers alerts cameras markerPositions
  = MapVisualization.refreshMarkers [] cameras markerPositions
  /\ (forall k, markerPositions !! k = None ->
        MapVisualization.refreshMarkers alerts cameras markerPositions !! k = None)
  /\ (forall k m, markerPositions !! k = Some m ->
        exists m',
          MapVisualization.refreshMarkers alerts cameras markerPositions !! k = Some m'
          /\ MapVisualization.cameraId m' = MapVisualization.cameraId m
          /\ MapVisualization.x m' = MapVisualization.x m
          /\ MapVisualization.y m' = MapVisualization.y m
          /\ (k ∉ map SimulatedCamera.id cameras -> m' = m))
  /\ (NoDup (map SimulatedCamera.id cameras) ->
      forall camera m,
        camera ∈ cameras ->
        markerPositions !! SimulatedCamera.id camera = Some m ->
        MapVisualization.refreshMarkers alerts cameras markerPositions
          !! SimulatedCamera.id camera
        = Some (MapVisualization.mkMarker
                  (MapVisualization.cameraId m) (MapVisualization.x m)
                  (MapVisualization.y m)
                  (CameraStatus_eqb (SimulatedCamera.status camera) fire)
                  (SimulatedCamera.confidence camera))).
Proof.
  split; [apply refreshMarkers_no_alerts|].
  split; [apply refreshMarkers_none|].
  split; [apply refreshMarkers_keeps_position|].
  revert markerPositions.
  induction cameras as [|c rest IH]; intros mp Hnd camera m Hin Hm; [inversion Hin|].
  cbn [map] in Hnd. apply NoDup_cons in Hnd as [Hnotin Hnd].
  unfold MapVisualization.refreshMarkers. cbn [fold_left].
  change (fold_left _ rest ?m0) with (MapVisualization.refreshMarkers alerts rest m0).
  apply elem_of_cons in Hin as [->|Hin].
  - pose proof (refreshMarker_lookup alerts c mp (SimulatedCamera.id c)) as Hl.
    rewrite Hm in Hl. destruct (decide _) as [_|Hne]; [|congruence]. cbn in Hl.
    destruct (refreshMarkers_keeps_position alerts rest _ _ _ Hl)
      as [m' [H1 [_ [_ [_ H5]]]]].
    rewrite H1, (H5 Hnotin). reflexivity.
  - apply IH; [exact Hnd | exact Hin|].
    rewrite refreshMarker_lookup, Hm.
    destruct (decide _) as [Heq|]; [|reflexivity].
    exfalso. apply Hnotin. rewrite Heq. apply elem_of_map. exists camera. auto.
Qed.

(** The table placed for the registry of the simulation-only page,
    refreshed when cam-1 and cam-4 are in fire status: the marker of
    cam-4 stays where it was placed and becomes active. *)
Lemma X8_witness :
  let placed := MapVisualization.placeMarkers (fun _ => (1 # 2)%Q) 0
                  Home.initialCameras ∅ in
  let camera := nth 3 (Home.cameras twoFiresState) twoOffsetCamera in
  placed !! "cam-4" = Some (MapVisualization.mkMarker "cam-4" (100 # 2) (100 # 2) false 0)
  /\ MapVisualization.refreshMarkers (Home.alerts twoFiresState)
       (Home.cameras twoFiresState) placed !! "cam-4"
     = Some (MapVisualization.mkMarker "cam-4" (100 # 2) (100 # 2) true
               (SimulatedCamera.confidence camera)).
Proof.
  intros placed camera.
  assert (Hm : placed !! "cam-4"
               = Some (MapVisualization.mkMarker "cam-4" (100 # 2) (100 # 2) false 0)).
  { vm_compute. reflexivity. }
  split; [exact Hm|].
  assert (Hnd : NoDup (map SimulatedCamera.id (Home.cameras twoFiresState))).
  { solve_NoDup_ids. }
  assert (Hin : camera ∈ Home.cameras twoFiresState).
  { apply list_elem_of_lookup. exists 3%nat. reflexivity. }
  exact (proj2 (proj2 (proj2 (X8_marker_refresh (Home.alerts twoFiresState)
                                (Home.cameras twoFiresState) placed)))
               Hnd camera _ Hin Hm).
Defined.

(** X7. One commit of the two marker effects of the map.  When only
    [imageLoaded] changed and the image is loaded, the table held
    afterwards is the freshly placed one: one marker for each camera id
    of the registry and no other key, each marker carrying the id it is
    stored under, not active, with confidence 0.  When [cameras] or
    [alerts] changed, the refresh effect makes the last call, so the
    table held afterwards is the captured table refreshed, whatever the
    placement effect drew in that commit: a key without a marker stays
    without one and a marker keeps its [x] and [y].  When neither
    changed and the image is not loaded, the table is left as it is. *)
Theorem X7_marker_commit (random : nat -> Q) (cameras : list SimulatedCamera.t)
    (alerts : list FireAlert.t)
    (markerPositions : gmap string MapVisualization.MarkerPosition) :
  (forall k,
      is_Some (MapVisualization.commitMarkers (MapVisualization.mkChanged true false false)
                 true random cameras alerts markerPositions !! k)
      <-> k ∈ map SimulatedCamera.id cameras)
  /\ (forall k m,
        MapVisualization.commitMarkers (MapVisualization.mkChanged true false false)
          true random cameras alerts markerPositions !! k = Some m ->
        MapVisualization.cameraId m = k
        /\ MapVisualization.isActive m = false
        /\ MapVisualization.confidence m = 0%Q)
  /\ (forall changed imageLoaded,
        MapVisualization.camerasChanged changed || MapVisualization.alertsChanged changed
        = true ->
        MapVisualization.commitMarkers changed imageLoaded random cameras alerts
          markerPositions
        = MapVisualization.refreshMarkers alerts cameras markerPositions
        /\ (forall k, markerPositions !! k = None ->
              MapVisualization.commitMarkers changed imageLoaded random cameras alerts
                markerPositions !! k = None)
        /\ (forall k m, markerPositions !! k = Some m ->
              exists m',
                MapVisualization.commitMarkers changed imageLoaded random cameras alerts
                  markerPositions !! k = Some m'
                /\ MapVisualization.x m' = MapVisualization.x m
                /\ MapVisualization.y m' = MapVisualization.y m))
  /\ (forall changed,
        MapVisualization.camerasChanged changed || MapVisualization.alertsChanged changed
        = false ->
        MapVisualization.commitMarkers changed false random cameras alerts markerPositions
        = markerPositions).
Proof.
  split; [|split; [|split]].
  - intros k. cbn. rewrite placeMarkers_keys, lookup_empty. split; [|auto].
    intros [H|[x H]]; [exact H | discriminate H].
  - intros k m H. cbn in H. apply placeMarkers_entries in H as [H|H]; [|exact H].
    rewrite lookup_empty in H. discriminate H.
  - intros changed imageLoaded Hch. unfold MapVisualization.commitMarkers.
    rewrite Hch. split; [reflexivity|]. split.
    + apply refreshMarkers_none.
    + intros k m Hm.
      destruct (refreshMarkers_keeps_position alerts cameras _ _ _ Hm)
        as [m' [H1 [_ [H3 [H4 _]]]]].
      exists m'. auto.
  - intros changed Hch. unfold MapVisualization.commitMarkers.
    rewrite Hch. cbn [MapVisualization.placementEffect negb].
    destruct (MapVisualization.imageLoadedChanged changed
              || MapVisualization.camerasChanged changed); reflexivity.
Qed.

(** The registry of the simulation-only page.  The commit in which the
    image gets loaded places a marker for cam-3 and none for an unknown
    id; the later commit in which the cameras changed (cam-1 and cam-4
    in fire status) keeps the marker of cam-4 where it was, whatever is
    drawn then, and gives no marker to a key that had none. *)
Lemma X7_witness :
  let placed := MapVisualization.commitMarkers (MapVisualization.mkChanged true false false)
                  true (fun _ => (1 # 2)%Q) Home.initialCameras [] ∅ in
  let later := MapVisualization.commitMarkers (MapVisualization.mkChanged false true true)
                 true (fun _ => (1 # 3)%Q) (Home.cameras twoFiresState)
                 (Home.alerts twoFiresState) placed in
  is_Some (placed !! "cam-3")
  /\ placed !! "cam-9" = None
  /\ later !! "cam-9" = None
  /\ exists m', later !! "cam-4" = Some m'
                /\ MapVisualization.x m' = (100 # 2)%Q
                /\ MapVisualization.y m' = (100 # 2)%Q.
Proof.
  intros placed later.
  assert (H9 : placed !! "cam-9" = None).
  { apply eq_None_not_Some. intros H.
    apply (proj1 (X7_marker_commit (fun _ => (1 # 2)%Q) Home.initialCameras [] ∅)) in H.
    cbn in H.
    repeat (apply elem_of_cons in H as [H|H]; [discriminate H|]).
    inversion H. }
  split; [|split; [exact H9|split]].
  - apply (proj1 (X7_marker_commit (fun _ => (1 # 2)%Q) Home.initialCameras [] ∅)).
    cbn. right. right. left.
  - apply (proj1 (proj2 (proj1 (proj2 (proj2
             (X7_marker_commit (fun _ => (1 # 3)%Q) (Home.cameras twoFiresState)
                (Home.alerts twoFiresState) placed)))
             (MapVisualization.mkChanged false true true) true eq_refl))).
    exact H9.
  - assert (H4 : placed !! "cam-4"
                 = Some (MapVisualization.mkMarker "cam-4" (100 # 2) (100 # 2) false 0)).
    { vm_compute. reflexivity. }
    destruct (proj2 (proj2 (proj1 (proj2 (proj2
               (X7_marker_commit (fun _ => (1 # 3)%Q) (Home.cameras twoFiresState)
                  (Home.alerts twoFiresState) placed)))
               (MapVisualization.mkChanged false true true) true eq_refl))
              "cam-4" _ H4) as [m' [H1 [H2 H3]]].
    exists m'. split; [exact H1|]. split; [exact H2 | exact H3].
Defined.

(** ** Scans and the opening of an alert *)

Lemma applyScanResult_idem result_cameras prev :
  BackendHome.applyScanResult result_cameras
    (BackendHome.applyScanResult result_cameras prev)
  = BackendHome.applyScanResult result_cameras prev.
Proof.
  unfold BackendHome.applyScanResult. rewrite map_map. apply map_ext. intros c.
  destruct (find (fun c0 => String.eqb (BackendCamera.camera_id c0) (SimulatedCamera.id c))
                 result_cameras) as [b|] eqn:Hf;
    cbn [SimulatedCamera.with_status SimulatedCamera.id]; rewrite Hf; reflexivity.
Qed.

(** X9. [performBackendScan] twice with the same answer of [scanAll]
    leaves the page as [performBackendScan] once: a repeated scan
    result changes nothing more, whether the backend is connected or
    not and whether the call threw, gave nothing or gave a result. *)
Theorem X9_scan_is_idempotent (outcome : ScanOutcome) (st : BackendHome.State) :
  BackendHome.performBackendScan outcome (BackendHome.performBackendScan outcome st)
  = BackendHome.performBackendScan outcome st.
Proof.
  unfold BackendHome.performBackendScan.
  destruct (negb (BackendHome.backendConnected st)) eqn:Hc.
  - cbn [BackendHome.setUseBackend BackendHome.backendConnected]. rewrite Hc. reflexivity.
  - destruct outcome as [| |result_cameras].
    + cbn [BackendHome.setUseBackend BackendHome.backendConnected]. rewrite Hc. reflexivity.
    + rewrite Hc. reflexivity.
    + cbn [BackendHome.backendConnected]. rewrite Hc.
      cbn [BackendHome.alerts BackendHome.cameras BackendHome.selectedAlert
           BackendHome.responsesSent BackendHome.simulationTime BackendHome.useBackend].
      rewrite applyScanResult_idem. reflexivity.
Qed.

(** X10. [handleVideoViewerOpen] while the page is service-backed
    (connected and [useBackend] set): the viewer opens only when the
    registry has the camera of the alert and [detectFire] gave a
    result, and then it shows the alert with the reported accuracy as
    its confidence and every other field as it was; when the camera is
    unknown, the call threw or gave nothing, the page is left exactly
    as it was.  While the page simulates, the alert is selected as it
    is, whatever [detectFire] would have answered. *)
Theorem X10_open_alert (alert : FireAlert.t) (outcome : DetectOutcome)
    (st : BackendHome.State) :
  (BackendHome.simulated st = true ->
   BackendHome.handleVideoViewerOpen (Some alert) outcome st
   = BackendHome.setSelectedAlert (Some alert) st)
  /\ (BackendHome.simulated st = false ->
      (forall c, c ∈ BackendHome.cameras st ->
                 SimulatedCamera.id c <> FireAlert.cameraId alert) ->
      BackendHome.handleVideoViewerOpen (Some alert) outcome st = st)
  /\ (BackendHome.simulated st = false ->
      (forall accuracy, outcome <> DetectResult accuracy) ->
      BackendHome.handleVideoViewerOpen (Some alert) outcome st = st)
  /\ (BackendHome.simulated st = false ->
      FireAlert.cameraId alert ∈ map SimulatedCamera.id (BackendHome.cameras st) ->
      forall accuracy, outcome = DetectResult accuracy ->
        BackendHome.handleVideoViewerOpen (Some alert) outcome st
        = BackendHome.setSelectedAlert
            (Some (FireAlert.mk (FireAlert.id alert) (FireAlert.location alert)
                                (FireAlert.address alert) (FireAlert.timestamp alert)
                                accuracy (FireAlert.coordinates alert)
                                (FireAlert.cameraId alert) (FireAlert.status alert)))
            st).
Proof.
  unfold BackendHome.simulated, BackendHome.handleVideoViewerOpen.
  destruct (BackendHome.backendConnected st), (BackendHome.useBackend st); cbn [negb orb andb];
    repeat split; try discriminate; try reflexivity.
  - intros _ Hno. destruct (find _ _) as [c|] eqn:Hf; [|reflexivity].
    apply find_some in Hf as [Hin Heq]. apply String.eqb_eq in Heq.
    destruct (Hno c); [apply list_elem_of_In, Hin | exact Heq].
  - intros _ Hno. destruct (find _ _); [|reflexivity].
    destruct outcome as [| |accuracy]; try reflexivity. destruct (Hno accuracy eq_refl).
  - intros _ Hin accuracy ->.
    destruct (find_camera_by_id _ _ Hin) as [c [Hf _]]. rewrite Hf. reflexivity.
Qed.

(** On the connected page with two fires: the alert of cam-4 with a
    result, with an exception, and an alert of an unknown camera; and
    the same alert on the page that is not connected. *)
Lemma X10_witness :
  let st := BackendHome.checkBackend true twoFiresBackendState in
  let alert := FireAlert.mk "1700000000000cam-4" "Park Avenue" "Binan City" 1700000000000
                            (180 # 200)%Q (407614 # 10000, - (739776 # 10000))%Q
                            "cam-4" active in
  BackendHome.alerts st !! 0%nat = Some alert
  /\ BackendHome.selectedAlert
       (BackendHome.handleVideoViewerOpen (Some alert) (DetectResult (3 # 4)) st)
     = Some (FireAlert.with_confidence (3 # 4) alert)
  /\ BackendHome.handleVideoViewerOpen (Some alert) DetectThrows st = st
  /\ BackendHome.handleVideoViewerOpen
       (Some (FireAlert.mk "x" "Nowhere" "" 0 0%Q (0, 0)%Q "cam-9" active))
       (DetectResult (3 # 4)) st = st
  /\ BackendHome.handleVideoViewerOpen (Some alert) DetectThrows twoFiresBackendState
     = BackendHome.setSelectedAlert (Some alert) twoFiresBackendState.
Proof.
  intros st alert. split; [reflexivity|]. split; [|split; [|split]].
  - assert (Hin : FireAlert.cameraId alert
                  ∈ map SimulatedCamera.id (BackendHome.cameras st)).
    { cbn. right. right. right. left. }
    rewrite (proj2 (proj2 (proj2 (X10_open_alert alert (DetectResult (3 # 4)) st))) eq_refl
               Hin (3 # 4)%Q eq_refl).
    reflexivity.
  - apply (proj1 (proj2 (proj2 (X10_open_alert alert DetectThrows st)))); [reflexivity|].
    intros accuracy. discriminate.
  - apply (proj1 (proj2 (X10_open_alert _ (DetectResult (3 # 4)) st))); [reflexivity|].
    intros c Hc. cbn in Hc.
    repeat (apply elem_of_cons in Hc as [->|Hc]; [cbn; discriminate|]).
    inversion Hc.
  - apply (proj1 (X10_open_alert alert DetectThrows twoFiresBackendState)). reflexivity.
Defined.

(** ** The fire window *)

(** X11. For a camera whose scheduled fire times are whole seconds, the
    fire-window test at a simulation time of [k] seconds succeeds
    exactly when one of the scheduled times is [k - 1], [k] or [k + 1]
    seconds: each scheduled time is met by three consecutive ticks, the
    first of them one second early. *)
Theorem X11_window_spans_three_ticks (k : Z) (seconds : list Z)
    (camera : SimulatedCamera.t) :
  SimulatedCamera.fireEventTimes camera = map (fun m => 1000 * m) seconds ->
  isFireTimeWindow (1000 * k) camera = true
  <-> exists m, m ∈ seconds /\ k - 1 <= m <= k + 1.
Proof.
  intros Hf. unfold isFireTimeWindow. rewrite Hf, existsb_exists. split.
  - intros [fireTime [Hin Hlt]]. apply in_map_iff in Hin as [m [<- Hm]].
    exists m. split; [apply list_elem_of_In, Hm|].
    apply Z.ltb_lt in Hlt. lia.
  - intros [m [Hm Hk]]. exists (1000 * m). split.
    + apply in_map_iff. exists m. split; [reflexivity | apply list_elem_of_In, Hm].
    + apply Z.ltb_lt. lia.
Qed.

(** cam-1, scheduled at 15 and 45 seconds, at 14, 16 and 17 seconds. *)
Lemma X11_witness :
  let camera := SimulatedCamera.mk "cam-1" "Smart City" "Binan City"
                  (407505 # 10000, - (739737 # 10000))%Q normal 0%Q
                  "/city-street-downtown.png" [15000; 45000] in
  Home.initialCameras !! 0%nat = Some camera
  /\ isFireTimeWindow 14000 camera = true
  /\ isFireTimeWindow 16000 camera = true
  /\ ~ (exists m, m ∈ [15; 45] /\ 17 - 1 <= m <= 17 + 1).
Proof.
  intros camera. split; [reflexivity|]. split; [|split].
  - apply (proj2 (X11_window_spans_three_ticks 14 [15; 45] camera eq_refl)).
    exists 15. split; [left | lia].
  - apply (proj2 (X11_window_spans_three_ticks 16 [15; 45] camera eq_refl)).
    exists 15. split; [left | lia].
  - intros H.
    apply (proj2 (X11_window_spans_three_ticks 17 [15; 45] camera eq_refl)) in H.
    discriminate H.
Defined.

Lemma resolveById_no_active alertId alerts cid :
  (forall a, a ∈ alerts -> FireAlert.cameraId a = cid -> FireAlert.status a = active ->
             FireAlert.id a = alertId) ->
  ~ ActiveAlertFor (resolveById alertId alerts) cid.
Proof.
  intros H [a' [Hin [Hc Hs]]]. apply elem_of_map in Hin as [a [-> Ha]].
  destruct (String.eqb (FireAlert.id a) alertId) eqn:Hid; [discriminate Hs|].
  apply String.eqb_neq in Hid. apply Hid, H; assumption.
Qed.

(** X12. Resolving while the fire window is still open, in the
    simulation-only page: when the simulation time is within the window
    of a camera and the resolution clears every active alert of that
    camera, the fire-window evaluation that follows the resolution puts
    the camera back in fire status and adds a new alert for it; the
    ledger is longer than before and again holds an active alert of the
    camera. *)
Theorem X12_resolution_inside_window_raises_again (E : Ambient) (st : Home.State)
    (alertId : string) (i : nat) (camera : SimulatedCamera.t) :
  Home.cameras st !! i = Some camera ->
  isFireTimeWindow (Home.simulationTime st) camera = true ->
  (forall a, a ∈ Home.alerts st ->
             FireAlert.cameraId a = SimulatedCamera.id camera ->
             FireAlert.status a = active -> FireAlert.id a = alertId) ->
  let st' := Home.step st (E, Home.ResolveAlert alertId) in
  (exists c', Home.cameras st' !! i = Some c'
              /\ SimulatedCamera.id c' = SimulatedCamera.id camera
              /\ SimulatedCamera.status c' = fire)
  /\ ActiveAlertFor (Home.alerts st') (SimulatedCamera.id camera)
  /\ (length (Home.alerts st) < length (Home.alerts st'))%nat.
Proof.
  intros Hi Hw Hall st'. subst st'. unfold Home.step.
  cbn [fst snd Home.handle Home.handleResolveAlert Home.fireWindowEffect
       Home.cameras Home.alerts Home.simulationTime].
  set (cameras1 := resetFireCameras (Home.cameras st)).
  set (alerts1 := resolveById alertId (Home.alerts st)).
  set (c1 := if CameraStatus_eqb (SimulatedCamera.status camera) fire
             then SimulatedCamera.with_status normal 0%Q camera else camera).
  assert (Hc1 : cameras1 !! i = Some c1).
  { subst cameras1 c1. rewrite resetFireCameras_lookup, Hi. reflexivity. }
  assert (Hid1 : SimulatedCamera.id c1 = SimulatedCamera.id camera).
  { subst c1. destruct (CameraStatus_eqb _ _); reflexivity. }
  assert (Htr : TriggeredIn (Home.simulationTime st) alerts1 cameras1
                            (SimulatedCamera.id camera)).
  { exists c1. split; [eapply list_elem_of_lookup_2; eauto|]. split; [|exact Hid1].
    apply triggers_true. split; [|split].
    - subst c1. unfold isFireTimeWindow in *.
      destruct (CameraStatus_eqb _ _); exact Hw.
    - eapply resetFireCameras_normal, list_elem_of_lookup_2; eauto.
    - rewrite Hid1. apply resolveById_no_active, Hall. }
  split; [|split].
  - destruct (forEachCamera_fst_lookup E (Home.simulationTime st) alerts1 cameras1 0%nat
                (cameras1, alerts1) i c1 Hc1) as [c' [H1 [H2 [H3 _]]]].
    exists c'. split; [exact H1|]. split; [congruence|].
    apply H3. right. rewrite Hid1. exact Htr.
  - apply fireWindowPass_active. left. exact Htr.
  - rewrite fireWindowPass_alerts, length_app, length_rev.
    subst alerts1. rewrite resolveById_length.
    destruct (proj2 (created_active E _ _ cameras1 0%nat _) Htr) as [a [Ha _]].
    destruct (created E (Home.simulationTime st) (resolveById alertId (Home.alerts st))
                      0 cameras1); [inversion Ha | cbn; lia].
Qed.

(** cam-4 fires at 19000; its alert is resolved in the same second and
    a new alert of cam-4 heads the ledger. *)
Lemma X12_witness :
  let st' := Home.step twoFiresState (exampleAmbient, Home.ResolveAlert "1700000000000cam-4") in
  ActiveAlertFor (Home.alerts st') "cam-4"
  /\ (length (Home.alerts twoFiresState) < length (Home.alerts st'))%nat.
Proof.
  refine (proj2 (X12_resolution_inside_window_raises_again exampleAmbient twoFiresState
                   "1700000000000cam-4" 3%nat
                   (SimulatedCamera.mk "cam-4" "Smart City" "Binan City"
                      (407614 # 10000, - (739776 # 10000))%Q fire (180 # 200)%Q
                      "/park-urban.png" [20000; 50000]) eq_refl eq_refl _)).
  intros a Ha Hc Hs. cbn in Ha.
  apply elem_of_cons in Ha as [->|Ha]; [reflexivity|].
  apply elem_of_cons in Ha as [->|Ha]; [discriminate Hc|].
  inversion Ha.
Defined.

(** ** A new alert and its camera *)

Lemma created_elem_camera E t alerts snapshot : forall i a,
  a ∈ created E t alerts i snapshot ->
  exists camera k,
    camera ∈ snapshot
    /\ triggers t alerts camera = true
    /\ a = newAlert (dateNow E k) (newDate E k) (confidenceAt E k) camera.
Proof.
  induction snapshot as [|camera rest IH]; intros i a Ha; [inversion Ha|].
  cbn [created] in Ha. apply elem_of_app in Ha as [Ha|Ha].
  - destruct (triggers t alerts camera) eqn:Ht; [|inversion Ha].
    apply list_elem_of_singleton in Ha. exists camera, i. split; [left|]. auto.
  - destruct (IH _ _ Ha) as [c [k [Hc H]]]. exists c, k. split; [right; exact Hc | exact H].
Qed.

Lemma not_TriggeredIn_fresh t alerts (rest : list SimulatedCamera.t) cid :
  cid ∉ map SimulatedCamera.id rest -> ~ TriggeredIn t alerts rest cid.
Proof.
  intros Hnot [x [Hx [_ Hid]]]. apply Hnot. rewrite <- Hid.
  apply elem_of_map. exists x. auto.
Qed.

(** The camera an alert of the pass was created for ends the pass in
    fire status with the confidence of the alert. *)
Lemma forEachCamera_fired E t alerts snapshot : forall i st a j c,
  NoDup (map SimulatedCamera.id snapshot) ->
  a ∈ created E t alerts i snapshot ->
  fst st !! j = Some c ->
  SimulatedCamera.id c = FireAlert.cameraId a ->
  fst (forEachCamera E t alerts i snapshot st) !! j
  = Some (SimulatedCamera.with_status fire (FireAlert.confidence a) c).
Proof.
  induction snapshot as [|camera rest IH]; intros i st a j c Hnd Ha Hj Hid; [inversion Ha|].
  cbn [map] in Hnd. apply NoDup_cons in Hnd as [Hnotin Hnd].
  cbn [created] in Ha. cbn [forEachCamera]. rewrite fireWindowBody_triggers.
  apply elem_of_app in Ha as [Ha|Ha].
  - destruct (triggers t alerts camera) eqn:Ht; [|inversion Ha].
    apply list_elem_of_singleton in Ha. subst a. cbn [newAlert FireAlert.cameraId] in Hid.
    cbn [newAlert FireAlert.confidence].
    edestruct (forEachCamera_fst_lookup E t alerts rest (S i)
                 (markFire camera (confidenceAt E i) (fst st),
                  newAlert (dateNow E i) (newDate E i) (confidenceAt E i) camera :: snd st)
                 j (SimulatedCamera.with_status fire (confidenceAt E i) c))
      as [c' [H1 [_ [_ H4]]]].
    { cbn [fst]. rewrite markFire_lookup, Hj. cbn.
      apply String.eqb_eq in Hid. rewrite Hid. reflexivity. }
    rewrite H1. f_equal. apply H4. cbn [SimulatedCamera.with_status SimulatedCamera.id].
    rewrite Hid. apply not_TriggeredIn_fresh, Hnotin.
  - assert (Hne : SimulatedCamera.id c <> SimulatedCamera.id camera).
    { intros Heq. apply created_elem in Ha as [_ [x [Hx [_ Hxid]]]].
      apply Hnotin. rewrite <- Heq, Hid, <- Hxid. apply elem_of_map. exists x. auto. }
    apply IH; [exact Hnd | exact Ha | | exact Hid].
    destruct (triggers t alerts camera); [|exact Hj].
    cbn [fst]. rewrite markFire_lookup, Hj. cbn.
    apply String.eqb_neq in Hne. rewrite Hne. reflexivity.
Qed.

(** X13. The fire-window effect of the simulation-only page, when the
    cameras have pairwise different ids: every alert it adds is a
    snapshot of one camera of the registry, which was normal and which
    the effect leaves with status fire, the very confidence written in
    the alert and its other fields as they were; the
    alert carries the id of that camera as [cameraId], its name as
    [location], its location as [address] and its coordinates, and is
    active. *)
Theorem X13_new_alert_mirrors_its_camera (E : Ambient) (st : Home.State) :
  NoDup (map SimulatedCamera.id (Home.cameras st)) ->
  exists news,
    Home.alerts (Home.fireWindowEffect E st) = news ++ Home.alerts st
    /\ forall a, a ∈ news ->
         exists j before after,
           Home.cameras st !! j = Some before
           /\ Home.cameras (Home.fireWindowEffect E st) !! j = Some after
           /\ SimulatedCamera.status before = normal
           /\ after = SimulatedCamera.mk
                        (SimulatedCamera.id before) (SimulatedCamera.name before)
                        (SimulatedCamera.location before)
                        (SimulatedCamera.coordinates before)
                        fire (FireAlert.confidence a)
                        (SimulatedCamera.imageUrl before)
                        (SimulatedCamera.fireEventTimes before)
           /\ FireAlert.cameraId a = SimulatedCamera.id before
           /\ FireAlert.location a = SimulatedCamera.name before
           /\ FireAlert.address a = SimulatedCamera.location before
           /\ FireAlert.coordinates a = SimulatedCamera.coordinates before
           /\ FireAlert.status a = active.
Proof.
  intros Hnd.
  exists (rev (created E (Home.simulationTime st) (Home.alerts st) 0 (Home.cameras st))).
  cbn [Home.fireWindowEffect Home.alerts Home.cameras]. rewrite fireWindowPass_alerts.
  split; [reflexivity|]. intros a Ha.
  apply list_elem_of_In, in_rev, list_elem_of_In in Ha.
  destruct (created_elem_camera _ _ _ _ _ _ Ha) as [camera [k [Hc [Ht Heq]]]].
  apply list_elem_of_lookup in Hc as [j Hj].
  exists j, camera, (SimulatedCamera.with_status fire (FireAlert.confidence a) camera).
  split; [exact Hj|]. split.
  - unfold fireWindowPass. apply forEachCamera_fired; [exact Hnd | exact Ha | exact Hj|].
    subst a. reflexivity.
  - apply triggers_true in Ht as [_ [Hn _]]. subst a. repeat split. exact Hn.
Qed.

(** The tick that takes the simulation to 19000: the one alert the
    effect adds is the alert of cam-4, and cam-4, normal before, is in
    fire status with the confidence of the alert afterwards. *)
Lemma X13_witness :
  let a := FireAlert.mk "1700000000000cam-4" "Smart City" "Binan City" 1700000000000
                        (180 # 200)%Q (407614 # 10000, - (739776 # 10000))%Q
                        "cam-4" active in
  Home.alerts (Home.fireWindowEffect exampleAmbient beforeSecondFireState)
  = [a] ++ Home.alerts beforeSecondFireState
  /\ exists j before after,
       Home.cameras beforeSecondFireState !! j = Some before
       /\ Home.cameras (Home.fireWindowEffect exampleAmbient beforeSecondFireState) !! j
          = Some after
       /\ SimulatedCamera.id before = "cam-4"
       /\ SimulatedCamera.status before = normal
       /\ SimulatedCamera.status after = fire
       /\ SimulatedCamera.confidence after = (180 # 200)%Q
       /\ SimulatedCamera.fireEventTimes after = SimulatedCamera.fireEventTimes before.
Proof.
  intros a.
  assert (Hnd : NoDup (map SimulatedCamera.id (Home.cameras beforeSecondFireState))).
  { solve_NoDup_ids. }
  assert (Hal' : Home.alerts (Home.fireWindowEffect exampleAmbient beforeSecondFireState)
                 = [a] ++ Home.alerts beforeSecondFireState).
  { vm_compute. reflexivity. }
  split; [exact Hal'|].
  destruct (X13_new_alert_mirrors_its_camera exampleAmbient beforeSecondFireState Hnd)
    as [news [Hal Hnews]].
  rewrite Hal' in Hal. apply app_inv_tail in Hal. subst news.
  destruct (Hnews a) as [j [before [after [H1 [H2 [H3 [H4 [H5 _]]]]]]]]; [left|].
  exists j, before, after. split; [exact H1|]. split; [exact H2|].
  split; [symmetry; exact H5|]. split; [exact H3|].
  rewrite H4. repeat split.
Defined.

(** ** The alert panel *)

(** X14. The alert panel: the "No alerts at this time" block is shown
    exactly when the ledger is empty; the "Resolved" card lists the
    first resolved alerts of the ledger, in ledger order, three at most
    and all of them when there are three or fewer. *)
Theorem X14_alert_panel_sections (alerts : list FireAlert.t) :
  (AlertPanel.noAlertsState alerts = true <-> alerts = [])
  /\ AlertPanel.shownResolved alerts `prefix_of` AlertPanel.resolvedAlerts alerts
  /\ length (AlertPanel.shownResolved alerts)
     = Nat.min 3 (Dashboard.resolvedAlerts alerts)
  /\ ((Dashboard.resolvedAlerts alerts <= 3)%nat ->
      AlertPanel.shownResolved alerts = AlertPanel.resolvedAlerts alerts).
Proof.
  split; [|split; [|split]].
  - unfold AlertPanel.noAlertsState, AlertPanel.activeAlerts, AlertPanel.resolvedAlerts.
    rewrite andb_true_iff, !Nat.eqb_eq. split.
    + intros [Ha Hr]. pose proof (filter_status_partition alerts) as Hp.
      unfold Dashboard.activeAlerts, Dashboard.resolvedAlerts in Hp.
      rewrite Ha, Hr in Hp. destruct alerts; [reflexivity | discriminate Hp].
    + intros ->. split; reflexivity.
  - apply prefix_take.
  - unfold AlertPanel.shownResolved. apply length_take.
  - intros Hle. unfold AlertPanel.shownResolved. apply take_ge. exact Hle.
Qed.

(** A ledger with one resolved alert. *)
Lemma X14_witness :
  AlertPanel.shownResolved
    (Home.alerts (Home.handleResolveAlert "1700000000000cam-1" twoFiresState))
  = AlertPanel.resolvedAlerts
      (Home.alerts (Home.handleResolveAlert "1700000000000cam-1" twoFiresState))
  /\ length (AlertPanel.shownResolved
               (Home.alerts (Home.handleResolveAlert "1700000000000cam-1" twoFiresState)))
     = 1%nat.
Proof.
  split; [|reflexivity].
  apply (proj2 (proj2 (proj2 (X14_alert_panel_sections _)))). vm_compute. lia.
Defined.

(** ** The backend page without its backend *)

Lemma toHomeState_step (d : DetectOutcome) (st : BackendHome.State)
    (x : Ambient * Home.Command) :
  BackendHome.simulated st = true ->
  toHomeState (BackendHome.step st (fst x, toBackendCommand d (snd x)))
  = Home.step (toHomeState st) x
  /\ BackendHome.simulated (BackendHome.step st (fst x, toBackendCommand d (snd x))) = true.
Proof.
  intros Hs. unfold BackendHome.simulated in Hs.
  assert (Hopen : BackendHome.backendConnected st && BackendHome.useBackend st = false).
  { destruct (BackendHome.backendConnected st), (BackendHome.useBackend st);
      cbn in Hs |- *; congruence. }
  destruct x as [E c]. unfold BackendHome.step, Home.step, BackendHome.simulated.
  cbn [fst snd].
  destruct c as [|[alert|]|alertId|alert];
    cbn [toBackendCommand BackendHome.handle Home.handle];
    unfold BackendHome.fireWindowEffect, BackendHome.handleVideoViewerOpen;
    rewrite ?Hopen;
    cbn [BackendHome.tick BackendHome.setSelectedAlert BackendHome.handleResolveAlert
         BackendHome.handleRequestResponse BackendHome.backendConnected
         BackendHome.useBackend];
    rewrite Hs; split; try reflexivity; exact Hs.
Qed.

(** X15. While the backend page simulates (not connected, or
    [useBackend] cleared) and no probe or scan arrives, it behaves as
    the simulation-only page: the same ticks, selections, resolutions
    and response requests lead to the same alerts, cameras, selected
    alert, response counter and simulation time, and the page still
    simulates afterwards. *)
Theorem X15_offline_backend_page_is_the_simulation_page (d : DetectOutcome)
    (trace : list (Ambient * Home.Command)) :
  forall st : BackendHome.State,
    BackendHome.simulated st = true ->
    toHomeState
      (BackendHome.run (map (fun x => (fst x, toBackendCommand d (snd x))) trace) st)
    = Home.run trace (toHomeState st)
    /\ BackendHome.simulated
         (BackendHome.run (map (fun x => (fst x, toBackendCommand d (snd x))) trace) st)
       = true.
Proof.
  induction trace as [|x trace IH]; intros st Hs; [split; [reflexivity | exact Hs]|].
  cbn [map BackendHome.run Home.run fold_left].
  destruct (toHomeState_step d st x Hs) as [Heq Hs'].
  destruct (IH _ Hs') as [H1 H2].
  split; [|exact H2].
  unfold BackendHome.run in H1. rewrite H1, Heq. reflexivity.
Qed.

(** Nineteen ticks and the resolution of the alert of cam-1 on the
    backend page that never heard from its backend. *)
Lemma X15_witness :
  let trace := ticks 19 ++ [(exampleAmbient, Home.ResolveAlert "1700000000000cam-1")] in
  toHomeState
    (BackendHome.run (map (fun x => (fst x, toBackendCommand DetectThrows (snd x))) trace)
                     (BackendHome.mount BackendHome.initialState))
  = Home.run trace (toHomeState (BackendHome.mount BackendHome.initialState)).
Proof.
  intros trace.
  apply (X15_offline_backend_page_is_the_simulation_page DetectThrows trace).
  reflexivity.
Defined.

(** ** How resolutions and the effect compose *)

Lemma resolveById_comm id1 id2 prev :
  resolveById id1 (resolveById id2 prev) = resolveById id2 (resolveById id1 prev).
Proof.
  unfold resolveById. rewrite !map_map. apply map_ext. intros a.
  destruct (String.eqb (FireAlert.id a) id1) eqn:H1,
           (String.eqb (FireAlert.id a) id2) eqn:H2;
    cbn [FireAlert.with_status FireAlert.id]; rewrite ?H1, ?H2; reflexivity.
Qed.

Lemma resolveById_idem alertId prev :
  resolveById alertId (resolveById alertId prev) = resolveById alertId prev.
Proof.
  unfold resolveById. rewrite !map_map. apply map_ext. intros a.
  destruct (String.eqb (FireAlert.id a) alertId) eqn:H1;
    cbn [FireAlert.with_status FireAlert.id]; rewrite H1; reflexivity.
Qed.

Lemma resetFireCameras_idem prev :
  resetFireCameras (resetFireCameras prev) = resetFireCameras prev.
Proof.
  unfold resetFireCameras. rewrite !map_map. apply map_ext. intros c.
  destruct (SimulatedCamera.status c) eqn:Hs; cbn; rewrite ?Hs; reflexivity.
Qed.

(** X16. [handleResolveAlert] of the backend page composes without
    surprise: resolving the same id twice gives the state of resolving
    it once, and resolving two ids gives the same state in either
    order. *)
Theorem X16_resolutions_commute (id1 id2 : string) (st : BackendHome.State) :
  BackendHome.handleResolveAlert id1 (BackendHome.handleResolveAlert id1 st)
  = BackendHome.handleResolveAlert id1 st
  /\ BackendHome.handleResolveAlert id1 (BackendHome.handleResolveAlert id2 st)
     = BackendHome.handleResolveAlert id2 (BackendHome.handleResolveAlert id1 st).
Proof.
  unfold BackendHome.handleResolveAlert.
  cbn [BackendHome.alerts BackendHome.cameras BackendHome.selectedAlert
       BackendHome.responsesSent BackendHome.simulationTime
       BackendHome.backendConnected BackendHome.useBackend].
  rewrite resolveById_idem, resetFireCameras_idem, (resolveById_comm id1 id2).
  split; reflexivity.
Qed.

(** X17. The fire-window effect settles in one run, in both pages:
    running it again on the state it produced, with any other clock and
    random values, changes nothing.  The render that the effect itself
    causes therefore creates no second alert. *)
Theorem X17_effect_settles (E E' : Ambient) :
  (forall st : Home.State,
      Home.fireWindowEffect E' (Home.fireWindowEffect E st) = Home.fireWindowEffect E st)
  /\ (forall st : BackendHome.State,
      BackendHome.fireWindowEffect E' (BackendHome.fireWindowEffect E st)
      = BackendHome.fireWindowEffect E st).
Proof.
  split; intros st.
  - unfold Home.fireWindowEffect at 1.
    cbn [Home.fireWindowEffect Home.simulationTime Home.cameras Home.alerts
         Home.selectedAlert Home.responsesSent].
    rewrite fireWindowPass_settles. reflexivity.
  - unfold BackendHome.fireWindowEffect.
    destruct (negb (BackendHome.backendConnected st) || negb (BackendHome.useBackend st))
      eqn:Hg.
    + cbn [BackendHome.backendConnected BackendHome.useBackend BackendHome.simulationTime
           BackendHome.cameras BackendHome.alerts BackendHome.selectedAlert
           BackendHome.responsesSent].
      rewrite Hg, fireWindowPass_settles. reflexivity.
    + rewrite Hg. reflexivity.
Qed.

Lemma resolveById_active_was_active alertId prev cid :
  ActiveAlertFor (resolveById alertId prev) cid -> ActiveAlertFor prev cid.
Proof.
  intros [a' [Hin [Hc Hs]]]. apply elem_of_map in Hin as [a [-> Ha]].
  destruct (String.eqb (FireAlert.id a) alertId); [discriminate Hs|].
  exists a. auto.
Qed.

(** X18. While the backend page is service-backed after a command
    (connected, [useBackend] set), that command and the effect that
    follows it add no alert: the ledger keeps its length, and a camera
    has an active alert afterwards only if it had one before.  In
    particular a scan that reports fire puts cameras in fire status
    without any alert being raised for them. *)
Theorem X18_service_backed_raises_no_alert (E : Ambient) (c : BackendHome.Command)
    (st : BackendHome.State) :
  BackendHome.simulated (BackendHome.handle c st) = false ->
  length (BackendHome.alerts (BackendHome.step st (E, c))) = length (BackendHome.alerts st)
  /\ forall cid,
       ActiveAlertFor (BackendHome.alerts (BackendHome.step st (E, c))) cid ->
       ActiveAlertFor (BackendHome.alerts st) cid.
Proof.
  intros Hs. unfold BackendHome.step, BackendHome.fireWindowEffect. cbn [fst snd].
  unfold BackendHome.simulated in Hs. rewrite Hs. clear Hs.
  destruct c; cbn [BackendHome.handle];
    rewrite ?performBackendScan_alerts,
            ?(proj1 (proj2 (handleVideoViewerOpen_frame _ _ _)));
    try (split; [reflexivity | auto]).
  - cbn [BackendHome.handleResolveAlert BackendHome.alerts].
    split; [apply resolveById_length | intros cid; apply resolveById_active_was_active].
  - cbn [BackendHome.handleRequestResponse BackendHome.handleResolveAlert
         BackendHome.alerts].
    split; [apply resolveById_length | intros cid; apply resolveById_active_was_active].
Qed.

(** A scan that reports fire for cam-1 and cam-4 on the connected page:
    cam-1 is in fire status afterwards and the ledger is still empty. *)
Lemma X18_witness :
  let st' := BackendHome.step connectedState
               (exampleAmbient, BackendHome.RequestScan (ScanResult scanWithoutCam3)) in
  length (BackendHome.alerts st') = 0%nat
  /\ SimulatedCamera.status <$> (BackendHome.cameras st' !! 0%nat) = Some fire.
Proof.
  intros st'. split; [|reflexivity].
  apply (proj1 (X18_service_backed_raises_no_alert exampleAmbient
                  (BackendHome.RequestScan (ScanResult scanWithoutCam3)) connectedState
                  eq_refl)).
Defined.
